(** * qagent-mcp: a shallow embedding of the configuration loaders, the two
    MCP tools, the conversational agent and the session registry.

    Conventions of the embedding.
    - A Python [str] is a [string]; one character stands for one code point,
      so [String.length] is [len] and [substring] is slicing.  The alphabet
      is the first 256 code points; [int], [repr] and [lower] are given on
      these.
    - A Python [int] is a [Z].  A [float] is a binary64 value, kept as a
      dyadic number; the decimal parser [float()] belongs to the interpreter
      and is taken as an argument where the code calls it.
    - Code that may raise returns a [result]; [try ... except Exception] is
      [try_except].  Only subclasses of [Exception] are modelled.
    - Calls that leave the process (search provider, summarizer, browser,
      tool server, reasoning loop, file system) are answered by an [Env] of
      oracles and recorded, in order, in a trace of [event]s.
    - [logger] calls only format values that are already at hand and are
      left out. *)

From stdpp Require Import base option list gmap strings pretty.
From Stdlib Require Import ZArith Lia.
From Stdlib Require Import Ascii.
From Stdlib Require String.

Local Open Scope Z_scope.

(** ** Exceptions and results *)

Inductive exn : Type :=
| ValueError (msg : string)
| TypeError (msg : string)
| AttributeError (msg : string)
| ZeroDivisionError (msg : string)
| HTTPException (status_code : Z) (detail : string)
| OtherException (msg : string).

(** [str(e)] *)
Definition exn_str (e : exn) : string :=
  match e with
  | ValueError m | TypeError m | AttributeError m
  | ZeroDivisionError m | OtherException m => m
  | HTTPException c d => pretty c +:+ ": " +:+ d
  end.

Inductive result (A : Type) : Type :=
| Ok (a : A)
| Raise (e : exn).
Arguments Ok {A} a.
Arguments Raise {A} e.

Definition is_ok {A} (r : result A) : bool :=
  match r with Ok _ => true | Raise _ => false end.

Definition result_bind {A B} (f : A -> result B) (r : result A) : result B :=
  match r with
  | Ok a => f a
  | Raise e => Raise e
  end.

(** ** Strings *)

Module PyStr.

Definition len (s : string) : Z := Z.of_nat (String.length s).

(** [s[:stop]] with Python's treatment of a negative or too large bound. *)
Definition slice_to (s : string) (stop : Z) : string :=
  let n := len s in
  let stop' := if stop <? 0 then Z.max 0 (stop + n) else Z.min stop n in
  String.substring 0 (Z.to_nat stop') s.

(** The capital letters of the first 256 code points: A to Z, and the
    accented ones from 192 to 222 except the multiplication sign, 215.  Each
    has its small letter 32 places further. *)
Definition lower_char (c : ascii) : ascii :=
  let n := Ascii.nat_of_ascii c in
  if (((65 <=? n) && (n <=? 90)) || ((192 <=? n) && (n <=? 214))
      || ((216 <=? n) && (n <=? 222)))%nat
  then Ascii.ascii_of_nat (n + 32) else c.

(** [s.lower()] *)
Fixpoint lower (s : string) : string :=
  match s with
  | EmptyString => EmptyString
  | String c s' => String (lower_char c) (lower s')
  end.

Definition squote : ascii := Ascii.ascii_of_nat 39.
Definition dquote : ascii := Ascii.ascii_of_nat 34.
Definition backslash : ascii := Ascii.ascii_of_nat 92.

Fixpoint has_char (c : ascii) (s : string) : bool :=
  match s with
  | EmptyString => false
  | String d s' => if Ascii.eqb c d then true else has_char c s'
  end.

Definition hex_digit (n : nat) : ascii :=
  if (n <? 10)%nat then Ascii.ascii_of_nat (48 + n) else Ascii.ascii_of_nat (87 + n).

(** The code points [repr] does not print as they are: the control
    characters below 32 and from 127 to 159, the no-break space, 160, and the
    soft hyphen, 173. *)
Definition printable (n : nat) : bool :=
  negb ((n <? 32) || ((127 <=? n) && (n <=? 160)) || (n =? 173))%nat.

Definition repr_char (quote c : ascii) : string :=
  let n := Ascii.nat_of_ascii c in
  if Ascii.eqb c quote || Ascii.eqb c backslash then String backslash (String c EmptyString)
  else if (n =? 9)%nat then String backslash "t"
  else if (n =? 10)%nat then String backslash "n"
  else if (n =? 13)%nat then String backslash "r"
  else if negb (printable n) then
    String backslash (String "x"%char (String (hex_digit (n / 16)) (String (hex_digit (n mod 16)) EmptyString)))
  else String c EmptyString.

Fixpoint repr_body (quote : ascii) (s : string) : string :=
  match s with
  | EmptyString => EmptyString
  | String c s' => repr_char quote c +:+ repr_body quote s'
  end.

(** [repr(s)]: single quotes unless the text has a single and no double
    quote. *)
Definition repr (s : string) : string :=
  let quote := if has_char squote s && negb (has_char dquote s) then dquote else squote in
  String quote (repr_body quote s +:+ String quote EmptyString).

(** [sep.join(parts)] *)
Fixpoint join (sep : string) (parts : list string) : string :=
  match parts with
  | [] => EmptyString
  | [p] => p
  | p :: rest => p +:+ sep +:+ join sep rest
  end.

(** [sub in s] *)
Definition contains (sub s : string) : Prop :=
  exists pre post, s = pre +:+ sub +:+ post.

End PyStr.

(** ** The builtin [int(str)] *)

Module PyInt.

(** The characters [int] takes for spaces: tab to carriage return, the
    space, the next-line control, 133, and the no-break space, 160. *)
Definition is_space (c : ascii) : bool :=
  let n := Ascii.nat_of_ascii c in
  (((9 <=? n) && (n <=? 13)) || (n =? 32) || (n =? 133) || (n =? 160))%nat.

Fixpoint lstrip (l : list ascii) : list ascii :=
  match l with
  | c :: l' => if is_space c then lstrip l' else l
  | [] => []
  end.

Definition digit (c : ascii) : option Z :=
  Z.of_nat <$> Ascii.is_nat c.

(** The run of decimal digits at the front of [l], single underscores
    allowed between two digits: its value, how many digits it has, and what
    follows it.  [None] for an empty run, an underscore in front, two in a
    row, or one at the end of the run. *)
Fixpoint digits (acc : Z) (count : nat) (after_digit : bool) (l : list ascii)
  : option (Z * nat * list ascii) :=
  match l with
  | [] => if after_digit then Some (acc, count, []) else None
  | c :: l' =>
      match digit c with
      | Some d => digits (10 * acc + d) (S count) true l'
      | None =>
          if Ascii.eqb c "_"%char
          then (if after_digit then digits acc count false l' else None)
          else (if after_digit then Some (acc, count, l) else None)
      end
  end.

(** Spaces, a sign, a run of digits: the signed value, the number of
    digits, and the rest of the text. *)
Definition scan (s : string) : option (Z * nat * list ascii) :=
  match lstrip (String.list_ascii_of_string s) with
  | "-"%char :: l => prod_map (prod_map Z.opp id) id <$> digits 0 0 false l
  | "+"%char :: l => digits 0 0 false l
  | l => digits 0 0 false l
  end.

(** The interpreter's limit on the digits of a literal: leading zeros
    count, the sign, the underscores and the spaces do not. *)
Definition max_str_digits : nat := 4300.

Definition limit_message (count : nat) : string :=
  "Exceeds the limit (4300 digits) for integer string conversion: value has "
  +:+ pretty count
  +:+ " digits; use sys.set_int_max_str_digits() to increase the limit".

(** The message shows the first 200 characters of [repr(s)]. *)
Definition invalid_message (s : string) : string :=
  "invalid literal for int() with base 10: " +:+ String.substring 0 200 (PyStr.repr s).

(** [int(s)] for a [str] argument: the value, or [ValueError].  The digits
    are 0 to 9, the only decimal digits among the first 256 code points.  The
    limit is checked at the end of the run of digits, before what follows the
    run is looked at; after the run only spaces are allowed. *)
Definition int (s : string) : result Z :=
  match scan s with
  | Some (z, count, rest) =>
      if (max_str_digits <? count)%nat then Raise (ValueError (limit_message count))
      else match lstrip rest with
           | [] => Ok z
           | _ :: _ => Raise (ValueError (invalid_message s))
           end
  | None => Raise (ValueError (invalid_message s))
  end.

(** The value [int(s)] returns, [None] where it raises. *)
Definition parse (s : string) : option Z :=
  match int s with
  | Ok z => Some z
  | Raise _ => None
  end.

End PyInt.

(** ** The builtin [float] *)

(** A binary64 value: [mantissa * 2 ^ exponent], an infinity, or a NaN. *)
Inductive pyfloat : Type :=
| Finite (mantissa exponent : Z)
| Infinity (negative : bool)
| NaN.

(** The literal [0.1]. *)
Definition float_0_1 : pyfloat := Finite 3602879701896397 (-55).

Module PyFloat.

(** [float(s)] for a [str] argument raises nothing but [ValueError]; which
    texts it accepts, and how it rounds them, is the interpreter's
    [parse]. *)
Definition float (parse : string -> option pyfloat) (s : string) : result pyfloat :=
  match parse s with
  | Some f => Ok f
  | None => Raise (ValueError ("could not convert string to float: " +:+ PyStr.repr s))
  end.

End PyFloat.

(** ** Lists *)

Module PyList.

Definition len {A} (l : list A) : Z := Z.of_nat (length l).

(** [l[:stop]] *)
Definition slice_to {A} (l : list A) (stop : Z) : list A :=
  let n := len l in
  let stop' := if stop <? 0 then Z.max 0 (stop + n) else Z.min stop n in
  take (Z.to_nat stop') l.

(** [l[start:]] *)
Definition slice_from {A} (l : list A) (start : Z) : list A :=
  let n := len l in
  let start' := if start <? 0 then Z.max 0 (start + n) else Z.min start n in
  drop (Z.to_nat start') l.

End PyList.

(** ** Data that crosses the process boundary *)

(** One search hit, a JSON object whose [title], [url] and [content] are
    texts. *)
Abbreviation SearchResult := (gmap string string) (only parsing).

(** The provider's answer; [results] is [None] when the key is absent. *)
Record SearchResponse : Type := {
  results : option (list SearchResult)
}.

(** A loaded or transformed page. *)
Record Document : Type := {
  page_content : string
}.

(** A tool descriptor obtained from the tool server. *)
Record Tool : Type := {
  tool_name : string;
  tool_description : string
}.

(** [HumanMessage(content=...)] and [AIMessage(content=...)]. *)
Inductive BaseMessage : Type :=
| HumanMessage (content : string)
| AIMessage (content : string).

(** The dictionary handed to the reasoning loop. *)
Record AgentInput : Type := {
  input : string;
  chat_history_in : list BaseMessage
}.

(** The dictionary the reasoning loop returns; only [output] is read. *)
Record AgentResponse : Type := {
  output : option string
}.

(** A cell of the catalog table; [None] is a null (NaN) cell. *)
Abbreviation Cell := (option string) (only parsing).

(** A [pandas.DataFrame]: column labels and rows of cells, one per label. *)
Record DataFrame : Type := {
  columns : list string;
  rows : list (list Cell)
}.

(** The [AgentExecutor] built by the framework, named by a handle. *)
Record AgentExecutor : Type := {
  executor_id : nat
}.

(** The client configuration dictionary of the front door. *)
Module Client.
Record Config : Type := {
  google_api_key : string;
  llm_temperature : pyfloat;
  llm_max_tokens : Z;
  llm_timeout : Z;
  request_timeout : Z;
  mcp_server_url : string
}.
End Client.

Abbreviation ClientConfig := Client.Config (only parsing).

(** ** Calls that leave the process *)

Inductive event : Type :=
| TavilySearch (query : string) (max_results : Z) (search_depth : string)
    (include_domains : list string)
| SummarizerInvoke (prompt : string)
| ChromiumLoad (urls : list string)
| TransformDocuments (docs : list Document) (tags_to_extract : list string)
| ReadCsv (path : string)
| McpGetTools (url : string)
| CreateAgentExecutor (sites : DataFrame) (config : ClientConfig) (tools : list Tool)
| ExecutorInvoke (executor : AgentExecutor) (agent_input : AgentInput).

(** What the outside world answers to each call. *)
Record Env : Type := {
  tavily_search : string -> Z -> string -> list string -> result SearchResponse;
  summarizer_invoke : string -> result string;
  chromium_load : list string -> result (list Document);
  transform_documents : list Document -> list string -> result (list Document);
  read_csv : string -> result DataFrame;
  mcp_get_tools : string -> result (list Tool);
  create_agent_executor : DataFrame -> ClientConfig -> list Tool -> result AgentExecutor;
  executor_ainvoke : AgentExecutor -> AgentInput -> result AgentResponse
}.

(** ** Actions: state, trace and exceptions *)

(** An action over a state [S] runs from a state and gives the calls it
    made, its outcome and the state it leaves; a raised exception keeps the
    state changes made before it. *)
Definition Act (S A : Type) : Type := S -> list event * result A * S.

Section Act.
Context {S : Type}.

Definition act_ret {A} (a : A) : Act S A := fun s => ([], Ok a, s).

Definition act_raise {A} (e : exn) : Act S A := fun s => ([], Raise e, s).

Definition act_bind {A B} (f : A -> Act S B) (m : Act S A) : Act S B :=
  fun s =>
    match m s with
    | (t1, Ok a, s1) => let '(t2, r, s2) := f a s1 in (t1 ++ t2, r, s2)
    | (t1, Raise e, s1) => (t1, Raise e, s1)
    end.

(** [try: m  except Exception as e: handler e] *)
Definition try_except {A} (m : Act S A) (handler : exn -> Act S A) : Act S A :=
  fun s =>
    match m s with
    | (t1, Raise e, s1) => let '(t2, r, s2) := handler e s1 in (t1 ++ t2, r, s2)
    | other => other
    end.

Definition get_state : Act S S := fun s => ([], Ok s, s).

Definition put_state (s' : S) : Act S unit := fun _ => ([], Ok tt, s').

(** An outside call: recorded, then answered. *)
Definition call {A} (ev : event) (answer : result A) : Act S A :=
  fun s => ([ev], answer, s).

(** A computation that may raise but touches nothing. *)
Definition lift_result {A} (r : result A) : Act S A := fun s => ([], r, s).

End Act.

#[global] Instance result_mret : MRet result := @Ok.
#[global] Instance result_mbind : MBind result := @result_bind.
#[global] Instance act_mret {S} : MRet (Act S) := @act_ret S.
#[global] Instance act_mbind {S} : MBind (Act S) := @act_bind S.

Definition trace_of {S A} (x : list event * result A * S) : list event := x.1.1.
Definition outcome_of {S A} (x : list event * result A * S) : result A := x.1.2.
Definition state_of {S A} (x : list event * result A * S) : S := x.2.

(** [x or default] for an optional [int]: [None] and [0] are falsy. *)
Definition int_or (x : option Z) (default : Z) : Z :=
  match x with
  | Some n => if n =? 0 then default else n
  | None => default
  end.

(** [x or default] for an optional [str]: [None] and the empty text are
    falsy. *)
Definition str_or (x : option string) (default : string) : string :=
  match x with
  | Some s => if String.eqb s EmptyString then default else s
  | None => default
  end.

(** Truth value of an optional [str]. *)
Definition str_truthy (x : option string) : bool :=
  match x with
  | Some s => negb (String.eqb s EmptyString)
  | None => false
  end.

(** [os.getenv(key, default)] with a text default. *)
Definition getenv_or (environ : gmap string string) (key fallback : string) : string :=
  default fallback (environ !! key).

Definition nl : string := String (ascii_of_nat 10) EmptyString.

(** * mcp_server.py *)

Module McpServer.

Record ServerConfig : Type := {
  google_api_key : option string;
  tavily_api_key : option string;
  max_results : Z;
  search_depth : string;
  max_content_size : Z;
  max_scrape_length : Z;
  enable_search_summarization : bool
}.

Record TavilyClient : Type := { api_key : string }.

Record SummarizerLLM : Type := {
  model : string;
  temperature : pyfloat;
  max_tokens : Z;
  llm_google_api_key : string
}.

Record ServerClients : Type := {
  config : ServerConfig;
  tavily_client : option TavilyClient;
  summarizer_llm : option SummarizerLLM
}.

(** [ServerClients._initialize_clients].  The two library constructors are
    taken to return the client they are asked for; if one raised, the real
    start-up would stop there, after the checks below have passed. *)
Definition _initialize_clients (self : ServerClients) : result ServerClients :=
  match tavily_api_key (config self) with
  | Some key =>
      if String.eqb key EmptyString
      then Raise (ValueError "TAVILY_API_KEY environment variable is required")
      else
        let self := {| config := config self;
                       tavily_client := Some {| api_key := key |};
                       summarizer_llm := summarizer_llm self |} in
        if enable_search_summarization (config self) && str_truthy (google_api_key (config self))
        then Ok {| config := config self;
                   tavily_client := tavily_client self;
                   summarizer_llm :=
                     Some {| model := "gemini-2.0-flash-lite";
                             temperature := float_0_1;
                             max_tokens := 1000;
                             llm_google_api_key := default EmptyString (google_api_key (config self)) |} |}
        else Ok self
  | None => Raise (ValueError "TAVILY_API_KEY environment variable is required")
  end.

(** [ServerClients.__init__]: the numeric entries go through a bare
    [int(...)]. *)
Definition ServerClients_init (environ : gmap string string) : result ServerClients :=
  max_results ← PyInt.int (getenv_or environ "MAX_RESULTS" "10");
  max_content_size ← PyInt.int (getenv_or environ "MAX_CONTENT_SIZE" "10000");
  max_scrape_length ← PyInt.int (getenv_or environ "MAX_SCRAPE_LENGTH" "20000");
  _initialize_clients
    {| config :=
         {| google_api_key := environ !! "GOOGLE_API_KEY";
            tavily_api_key := environ !! "TAVILY_API_KEY";
            max_results := max_results;
            search_depth := getenv_or environ "SEARCH_DEPTH" "basic";
            max_content_size := max_content_size;
            max_scrape_length := max_scrape_length;
            enable_search_summarization :=
              String.eqb (PyStr.lower (getenv_or environ "ENABLE_SEARCH_SUMMARIZATION" "false")) "true" |};
       tavily_client := None;
       summarizer_llm := None |}.

(** Module load: [server_clients = ServerClients()], any exception is
    logged and raised again. *)
Definition load_server_clients (environ : gmap string string) : result ServerClients :=
  match ServerClients_init environ with
  | Ok server_clients => Ok server_clients
  | Raise e => Raise e
  end.

Definition get_default_tags : list string :=
  ["p"; "li"; "div"; "a"; "span"; "h1"; "h2"; "h3"; "h4"; "h5"; "h6"].

(** The content shown for one result. *)
Definition shown_content (content : string) (max_content_size : Z) : string :=
  if PyStr.len content >? max_content_size
  then PyStr.slice_to content max_content_size +:+ "..."
  else content.

(** One pass of the loop of [format_search_results]. *)
Definition format_result (i : nat) (result : SearchResult) (max_content_size : Z) : string :=
  let title := default "No title" (result !! "title") in
  let url := default "No URL" (result !! "url") in
  let content := default "No content available" (result !! "content") in
  let content := shown_content content max_content_size in
  nl +:+ "Result " +:+ pretty i +:+ ":" +:+ nl +:+
  "Title: " +:+ title +:+ nl +:+
  "URL: " +:+ url +:+ nl +:+
  "Content: " +:+ content +:+ nl +:+
  "---" +:+ nl.

(** [for i, result in enumerate(results, i): ...] *)
Fixpoint format_from (i : nat) (results : list SearchResult) (max_content_size : Z)
  : list string :=
  match results with
  | [] => []
  | result :: rest =>
      format_result i result max_content_size :: format_from (S i) rest max_content_size
  end.

Definition format_search_results (results : list SearchResult) (max_content_size : Z)
  : list string :=
  format_from 1 results max_content_size.

Definition create_summary_prompt (search_results original_query : string) : string :=
  PyStr.join nl
    [ EmptyString;
      "You are a technical documentation summarizer. Your job is to extract and summarize only the most relevant information from search results.";
      EmptyString;
      "Original User Query: " +:+ String PyStr.dquote (original_query +:+ String PyStr.dquote EmptyString);
      EmptyString;
      "Search Results to Summarize:";
      search_results;
      EmptyString;
      "Instructions:";
      "1. Focus ONLY on information directly relevant to answering the user's query";
      "2. Remove redundant content, boilerplate text, and navigation elements  ";
      "3. Preserve specific technical details, code examples, and step-by-step instructions";
      "4. Maintain source URLs for attribution";
      "5. Keep the summary comprehensive but concise";
      "6. Format clearly for easy reading";
      EmptyString;
      "Relevant Summary:";
      EmptyString ].

Definition no_results_message : string :=
  "No results found. Try a different search query or check if domains are accessible.".

Section Tools.
Variable env : Env.

(** The summarization attempt of [search_documentation]; the logged
    reduction divides by [len(final_result)]. *)
Definition summarize (final_result query : string) : Act ServerClients string :=
  let prompt := create_summary_prompt final_result query in
  summarized_result ← call (SummarizerInvoke prompt) (summarizer_invoke env prompt);
  if PyStr.len final_result =? 0
  then act_raise (ZeroDivisionError "division by zero")
  else mret summarized_result.

(** The [try] block of [search_documentation]. *)
Definition search_documentation_body (query : string) (sites : list string)
    (max_results : option Z) (depth : option string) : Act ServerClients string :=
  server_clients ← get_state;
  let final_max_results := int_or max_results (McpServer.max_results (config server_clients)) in
  let final_depth := str_or depth (search_depth (config server_clients)) in
  _ ← match tavily_client server_clients with
      | Some client => mret client
      | None => act_raise (AttributeError "'NoneType' object has no attribute 'search'")
      end;
  search_results ← call (TavilySearch query final_max_results final_depth sites)
                        (tavily_search env query final_max_results final_depth sites);
  match results search_results with
  | None | Some [] => mret no_results_message
  | Some found =>
      let formatted_results :=
        format_search_results (PyList.slice_to found final_max_results)
                              (max_content_size (config server_clients)) in
      let final_result := PyStr.join nl formatted_results in
      if enable_search_summarization (config server_clients)
         && bool_decide (is_Some (summarizer_llm server_clients))
      then try_except (summarize final_result query) (fun _ => mret final_result)
      else mret final_result
  end.

Definition search_documentation (query : string) (sites : list string)
    (max_results : option Z) (depth : option string) : Act ServerClients string :=
  try_except (search_documentation_body query sites max_results depth)
             (fun e => mret ("❌ Search error: " +:+ exn_str e)).

(** The text kept from a scraped page. *)
Definition scraped_content (content : string) (max_scrape_length : Z) : string :=
  if PyStr.len content >? max_scrape_length
  then PyStr.slice_to content max_scrape_length +:+ nl +:+ nl +:+ "... (content truncated)"
  else content.

Definition scrape_template (url content : string) : string :=
  nl +:+ "**Website Scraped:** " +:+ url +:+ nl +:+
  "**Content Extracted:**" +:+ nl +:+ nl +:+
  content +:+ nl +:+ nl +:+
  "**Note:** Complete website content for comprehensive analysis." +:+ nl.

(** The [try] block of [scrape_website]. *)
Definition scrape_website_body (url : string) (tags_to_extract : option (list string))
  : Act ServerClients string :=
  let tags_to_extract := default get_default_tags tags_to_extract in
  html_docs ← call (ChromiumLoad [url]) (chromium_load env [url]);
  match html_docs with
  | [] => mret ("Failed to load content from " +:+ url)
  | _ :: _ =>
      docs_transformed ← call (TransformDocuments html_docs tags_to_extract)
                              (transform_documents env html_docs tags_to_extract);
      match docs_transformed with
      | [] => mret ("No content extracted from " +:+ url)
      | doc :: _ =>
          server_clients ← get_state;
          let content :=
            scraped_content (page_content doc) (max_scrape_length (config server_clients)) in
          mret (scrape_template url content)
      end
  end.

Definition scrape_website (url : string) (tags_to_extract : option (list string))
  : Act ServerClients string :=
  try_except (scrape_website_body url tags_to_extract)
             (fun e => mret ("Web scraping error for " +:+ url +:+ ": " +:+ exn_str e)).

End Tools.

End McpServer.

(** * qa_agent.py *)

Module QaAgent.

Definition required_columns : list string := ["site"; "domain"; "description"].

(** [str] of a list of texts. *)
Definition repr_list (l : list string) : string :=
  "[" +:+ PyStr.join ", " (PyStr.repr <$> l) +:+ "]".

(** [load_sites_data]: read the table, then check that the three columns
    exist. *)
Definition load_sites_data {S} (env : Env) (csv_file_path : string) : Act S DataFrame :=
  df ← call (ReadCsv csv_file_path) (read_csv env csv_file_path);
  let missing_columns :=
    filter (fun col => col ∉ columns df) required_columns in
  match missing_columns with
  | [] => mret df
  | _ :: _ =>
      act_raise (ValueError ("Missing required columns: " +:+ repr_list missing_columns))
  end.

(** The chat model built by [create_llm]. *)
Record ChatLLM : Type := {
  model : string;
  google_api_key : string;
  temperature : pyfloat;
  max_tokens : Z;
  timeout : Z
}.

Definition create_llm (config : ClientConfig) : ChatLLM :=
  {| model := "gemini-2.0-flash";
     google_api_key := Client.google_api_key config;
     temperature := Client.llm_temperature config;
     max_tokens := Client.llm_max_tokens config;
     timeout := Client.llm_timeout config |}.

(** [MultiServerMCPClient(connections={"qa_agent_server": connection})] *)
Record McpClient : Type := {
  connection_url : string;
  connection_transport : string
}.

(** The attributes of a [DomainQAAgent]. *)
Record Agent : Type := {
  config : ClientConfig;
  mcp_server_url : string;
  sites_df : DataFrame;
  llm : ChatLLM;
  chat_history : list BaseMessage;
  mcp_client : option McpClient;
  tools : list Tool;
  agent_executor : option AgentExecutor
}.

Definition set_chat_history (h : list BaseMessage) (self : Agent) : Agent :=
  {| config := config self; mcp_server_url := mcp_server_url self;
     sites_df := sites_df self; llm := llm self;
     chat_history := h;
     mcp_client := mcp_client self; tools := tools self;
     agent_executor := agent_executor self |}.

Definition set_mcp_client (c : option McpClient) (self : Agent) : Agent :=
  {| config := config self; mcp_server_url := mcp_server_url self;
     sites_df := sites_df self; llm := llm self;
     chat_history := chat_history self;
     mcp_client := c; tools := tools self;
     agent_executor := agent_executor self |}.

Definition set_tools (t : list Tool) (self : Agent) : Agent :=
  {| config := config self; mcp_server_url := mcp_server_url self;
     sites_df := sites_df self; llm := llm self;
     chat_history := chat_history self;
     mcp_client := mcp_client self; tools := t;
     agent_executor := agent_executor self |}.

Definition set_agent_executor (e : option AgentExecutor) (self : Agent) : Agent :=
  {| config := config self; mcp_server_url := mcp_server_url self;
     sites_df := sites_df self; llm := llm self;
     chat_history := chat_history self;
     mcp_client := mcp_client self; tools := tools self;
     agent_executor := e |}.

Definition modify (f : Agent -> Agent) : Act Agent unit :=
  fun self => ([], Ok tt, f self).

(** [DomainQAAgent.__init__]; it runs in the caller's state and gives the
    new object. *)
Definition DomainQAAgent_init {S} (env : Env) (csv_file_path : string)
    (config : option ClientConfig) : Act S Agent :=
  match config with
  | None => act_raise (ValueError "Configuration is required")
  | Some config =>
      sites_df ← load_sites_data env csv_file_path;
      mret {| config := config;
              mcp_server_url := Client.mcp_server_url config;
              sites_df := sites_df;
              llm := create_llm config;
              chat_history := [];
              mcp_client := None;
              tools := [];
              agent_executor := None |}
  end.

Definition default_csv_file_path : string := "sites_data.csv".

Section Methods.
Variable env : Env.

(** [_create_agent]: the prompt built from the catalog and the
    framework's constructors, as one outside call. *)
Definition _create_agent : Act Agent AgentExecutor :=
  self ← get_state;
  call (CreateAgentExecutor (sites_df self) (config self) (tools self))
       (create_agent_executor env (sites_df self) (config self) (tools self)).

(** [_initialize_mcp_client]: the client is stored before the tools are
    fetched; an exception is logged and raised again. *)
Definition _initialize_mcp_client : Act Agent unit :=
  self ← get_state;
  match mcp_client self with
  | Some _ => mret tt
  | None =>
      try_except
        (let connection := {| connection_url := mcp_server_url self;
                              connection_transport := "streamable_http" |} in
         modify (set_mcp_client (Some connection));;
         tools ← call (McpGetTools (mcp_server_url self))
                      (mcp_get_tools env (mcp_server_url self));
         modify (set_tools tools);;
         executor ← _create_agent;
         modify (set_agent_executor (Some executor)))
        (fun e => act_raise e)
  end.

(** [self.chat_history[-5:] if self.chat_history else []] *)
Definition context_turns (chat_history : list BaseMessage) : list BaseMessage :=
  match chat_history with
  | [] => []
  | _ :: _ => PyList.slice_from chat_history (-5)
  end.

Definition fallback_answer : string := "I couldn't process your request.".

(** The [try] block of [achat]. *)
Definition achat_body (user_input : string) : Act Agent string :=
  _initialize_mcp_client;;
  self ← get_state;
  let agent_input := {| input := user_input;
                        chat_history_in := context_turns (chat_history self) |} in
  executor ← match agent_executor self with
             | Some executor => mret executor
             | None => act_raise (AttributeError "'NoneType' object has no attribute 'ainvoke'")
             end;
  response ← call (ExecutorInvoke executor agent_input)
                  (executor_ainvoke env executor agent_input);
  let answer := default fallback_answer (output response) in
  modify (fun self =>
            set_chat_history
              (chat_history self ++ [HumanMessage user_input; AIMessage answer]) self);;
  mret answer.

Definition achat (user_input : string) : Act Agent string :=
  try_except (achat_body user_input)
             (fun e => mret ("Error: " +:+ exn_str e)).

Definition reset_memory : Act Agent unit :=
  modify (set_chat_history []).

End Methods.

(** ** The system prompt *)

(** A row of the catalog, read by label, whose [site], [domain] and
    [description] cells are texts. *)
Record SiteRow : Type := {
  site : string;
  domain : string;
  description : string
}.

(** [{"site": ..., "description": ...}] *)
Record Source : Type := {
  source_site : string;
  source_description : string
}.

(** [domain in domain_groups], the dictionary kept in insertion order. *)
Definition has_domain (domain : string) (domain_groups : list (string * list Source)) : bool :=
  existsb (fun entry => String.eqb entry.1 domain) domain_groups.

(** [domain_groups[domain].append(source)] *)
Fixpoint append_source (domain : string) (source : Source)
    (domain_groups : list (string * list Source)) : list (string * list Source) :=
  match domain_groups with
  | [] => []
  | (d, sources) :: rest =>
      if String.eqb d domain then (d, sources ++ [source]) :: rest
      else (d, sources) :: append_source domain source rest
  end.

(** One pass of the first loop of [build_knowledge_sources_text]. *)
Definition add_row (acc : list (string * list Source) * list string) (row : SiteRow)
  : list (string * list Source) * list string :=
  let '(domain_groups, domains) := acc in
  let '(domain_groups, domains) :=
    if has_domain (domain row) domain_groups then (domain_groups, domains)
    else (domain_groups ++ [(domain row, [])], domains ++ [domain row]) in
  (append_source (domain row)
     {| source_site := site row; source_description := description row |} domain_groups,
   domains).

Definition group_rows (rows : list SiteRow) : list (string * list Source) * list string :=
  fold_left add_row rows ([], []).

(** One pass of the inner loop of the second loop. *)
Definition add_source_line (knowledge_sources_md : string) (source : Source) : string :=
  knowledge_sources_md +:+ "- " +:+ source_site source +:+ ": "
    +:+ source_description source +:+ nl.

(** One pass of the second loop. *)
Definition add_domain_section (knowledge_sources_md : string)
    (entry : string * list Source) : string :=
  let knowledge_sources_md := knowledge_sources_md +:+ nl +:+ "## " +:+ entry.1 +:+ nl +:+ nl in
  let knowledge_sources_md := fold_left add_source_line entry.2 knowledge_sources_md in
  knowledge_sources_md +:+ nl.

Definition build_knowledge_sources_text (rows : list SiteRow) : string * list string :=
  let '(domain_groups, domains) := group_rows rows in
  (fold_left add_domain_section domain_groups EmptyString, domains).

(** [create_system_prompt]: the template, line by line; [{{tools}}] and
    [{{tool_names}}] of the source stay in the text as [{tools}] and
    [{tool_names}] for the framework to fill. *)
Definition create_system_prompt (knowledge_sources_md : string) (domains : list string)
  : string :=
  let quote := String PyStr.dquote EmptyString in
  PyStr.join nl
    [ "You are a specialized Q&A agent that searches specific documentation websites.";
      EmptyString;
      "AVAILABLE KNOWLEDGE SOURCES split by category/domain/topic having the website and description for each category:";
      knowledge_sources_md;
      EmptyString;
      "INSTRUCTIONS:";
      "1. ALWAYS start with the search_documentation tool for ANY question";
      "2. Analyze the user's question to determine relevant domains/topics/categories";
      "3. Select appropriate sites based on technologies/topics mentioned";
      "4. If search results don't provide sufficient information to answer the question completely, then use scrape_website tool on the most relevant URL from search results";
      "5. You must only answer questions about available knowledge sources: " +:+ repr_list domains;
      "6. If question is outside available knowledge sources, do not answer the question and suggest which topics you can answer";
      EmptyString;
      "TOOL USAGE STRATEGY:";
      "- First: Use search_documentation to find relevant information quickly";
      "- Second: If search results are incomplete, unclear or do not provide enough information to answer the question, use scrape_website on the most promising URL from search results";
      "- Always prefer search over scraping for efficiency but always use scraping when search results provided no relevant information";
      EmptyString;
      "RULES:";
      "- Be helpful and comprehensive";
      "- Cite sources when possible";
      "- Only use scraping when search results provide no answer";
      "- When scraping, choose the most relevant URL from previous search results";
      EmptyString;
      "You have access to the following tools:";
      EmptyString;
      "{tools}";
      EmptyString;
      "Use a json blob to specify a tool by providing an action key (tool name) and an action_input key (tool input).";
      EmptyString;
      "Valid " +:+ quote +:+ "action" +:+ quote +:+ " values: " +:+ quote +:+ "Final Answer" +:+ quote +:+ " or {tool_names}";
      EmptyString;
      "Provide only ONE action per $JSON_BLOB, as shown:";
      "```";
      "{{";
      "  " +:+ quote +:+ "action" +:+ quote +:+ ": " +:+ quote +:+ "$TOOL_NAME" +:+ quote +:+ ",";
      "  " +:+ quote +:+ "action_input" +:+ quote +:+ ": " +:+ quote +:+ "$INPUT" +:+ quote;
      "}}";
      "```";
      EmptyString;
      "Follow this format:";
      EmptyString;
      "Question: input question to answer";
      "Thought: consider previous and subsequent steps";
      "Action:";
      "```";
      "$JSON_BLOB";
      "```";
      "Observation: action result";
      "... (repeat Thought/Action/Observation N times)";
      "Thought: I know what to respond";
      "Action: ";
      "```";
      "{{";
      "  " +:+ quote +:+ "action" +:+ quote +:+ ": " +:+ quote +:+ "Final Answer" +:+ quote +:+ ",";
      "  " +:+ quote +:+ "action_input" +:+ quote +:+ ": " +:+ quote +:+ "response" +:+ quote;
      "}}";
      "```";
      "Begin! Reminder to ALWAYS respond with a valid json blob of a single action. Use tools if necessary. Respond directly if appropriate and ask for clarification if something is not clear. Format is Action:```$JSON_BLOB```then Observation";
      EmptyString ].

End QaAgent.

(** * main.py *)

Module Main.

Section Config.
Variable environ : gmap string string.
(** The interpreter's decimal parser behind [float(s)]. *)
Variable parse_float : string -> option pyfloat.

(** [get_env_with_fallback].  Every caller passes a numeric default and
    a converter.  [os.getenv(key, default)] then gives either the text
    of the variable, which differs from the numeric default, so the
    converter runs on it, or the default itself, which is returned as it
    is.  Only [ValueError] and [TypeError] are handled. *)
Definition get_env_with_fallback {A} (key : string) (fallback : A)
    (converter : string -> result A) : result A :=
  match environ !! key with
  | Some value =>
      match converter value with
      | Ok converted => Ok converted
      | Raise (ValueError _) | Raise (TypeError _) => Ok fallback
      | Raise e => Raise e
      end
  | None => Ok fallback
  end.

Definition validate_client_config : result (string * string) :=
  let mcp_server_url := getenv_or environ "MCP_SERVER_URL" "http://127.0.0.1:8001/mcp" in
  match environ !! "GOOGLE_API_KEY" with
  | Some google_api_key =>
      if String.eqb google_api_key EmptyString
         || String.eqb google_api_key "your_google_api_key_here"
      then Raise (ValueError "GOOGLE_API_KEY environment variable is required for the client LLM")
      else Ok (google_api_key, mcp_server_url)
  | None =>
      Raise (ValueError "GOOGLE_API_KEY environment variable is required for the client LLM")
  end.

Definition build_config : result ClientConfig :=
  '(google_api_key, mcp_server_url) ← validate_client_config;
  llm_temperature ← get_env_with_fallback "LLM_TEMPERATURE" float_0_1 (PyFloat.float parse_float);
  llm_max_tokens ← get_env_with_fallback "LLM_MAX_TOKENS" 3000 PyInt.int;
  llm_timeout ← get_env_with_fallback "LLM_TIMEOUT" 60 PyInt.int;
  request_timeout ← get_env_with_fallback "REQUEST_TIMEOUT" 30 PyInt.int;
  mret {| Client.google_api_key := google_api_key;
          Client.llm_temperature := llm_temperature;
          Client.llm_max_tokens := llm_max_tokens;
          Client.llm_timeout := llm_timeout;
          Client.request_timeout := request_timeout;
          Client.mcp_server_url := mcp_server_url |}.

(** [create_config]: logs, and raises again what [build_config] raised. *)
Definition create_config : result ClientConfig :=
  match build_config with
  | Ok config => Ok config
  | Raise e => Raise e
  end.

End Config.

(** ** The session registry *)

(** [app.state] once [lifespan] has run: the registry maps a session token
    to the agent object it owns, named by its place in the heap. *)
Record AppState : Type := {
  user_sessions : gmap string nat;
  config : ClientConfig
}.

(** The front door: the agent objects that exist, and [app.state], which
    has no attributes before start-up. *)
Record Server : Type := {
  heap : list QaAgent.Agent;
  app_state : option AppState
}.

(** Start-up half of [lifespan]. *)
Definition lifespan_startup (environ : gmap string string)
    (parse_float : string -> option pyfloat) (server : Server) : result Server :=
  config ← create_config environ parse_float;
  mret {| heap := heap server;
          app_state := Some {| user_sessions := ∅; config := config |} |}.

Definition get_or_create_agent (env : Env) (session_id : string) : Act Server nat :=
  server ← get_state;
  match app_state server with
  | None => act_raise (HTTPException 500 "Session store not initialized")
  | Some state =>
      match user_sessions state !! session_id with
      | Some agent => mret agent
      | None =>
          new_agent ← QaAgent.DomainQAAgent_init env QaAgent.default_csv_file_path
                                                 (Some (config state));
          let agent := length (heap server) in
          put_state {| heap := heap server ++ [new_agent];
                       app_state :=
                         Some {| user_sessions := <[session_id := agent]> (user_sessions state);
                                 config := config state |} |};;
          mret agent
      end
  end.

(** ** The endpoints *)

(** A method call on the agent object that a reference names; the object
    is updated in place.  A reference held by the registry always names an
    object, see [registry_valid]. *)
Definition on_agent {A} (agent : nat) (method : Act QaAgent.Agent A) : Act Server A :=
  fun server =>
    match heap server !! agent with
    | Some self =>
        let '(t, r, self') := method self in
        (t, r, {| heap := <[agent := self']> (heap server);
                  app_state := app_state server |})
    | None => ([], Raise (OtherException "dangling reference"), server)
    end.

(** A value of a JSON answer. *)
Inductive json : Type :=
| JStr (s : string)
| JInt (n : Z).

Definition health_check (server : Server) : list (string * json) :=
  [ ("message", JStr "Domain Q&A Agent API is running");
    ("status", JStr "healthy");
    ("version", JStr "1.0.0");
    ("active_sessions",
     JInt (match app_state server with
           | Some state => Z.of_nat (size (user_sessions state))
           | None => 0
           end)) ].

Module ChatRequest.
Record t : Type := {
  message : string;
  reset_memory : bool
}.
End ChatRequest.

Module ChatResponse.
Record t : Type := {
  response : string;
  status : string;
  session_id : string
}.
End ChatResponse.

(** The arguments of [response.set_cookie]. *)
Record SetCookie : Type := {
  key : string;
  value : string;
  httponly : bool;
  secure : bool;
  samesite : string;
  max_age : Z
}.

(** [POST /chat].  [uuid4] is the text [str(uuid.uuid4())] would give; the
    answer comes with the cookie set on the response, if any. *)
Definition chat (env : Env) (uuid4 : string) (request : ChatRequest.t)
    (session_id : option string) : Act Server (ChatResponse.t * option SetCookie) :=
  let '(session_id, cookie) :=
    match session_id with
    | Some token =>
        if String.eqb token EmptyString
        then (uuid4, Some {| key := "session_id"; value := uuid4; httponly := true;
                             secure := true; samesite := "lax"; max_age := 3600 |})
        else (token, None)
    | None =>
        (uuid4, Some {| key := "session_id"; value := uuid4; httponly := true;
                        secure := true; samesite := "lax"; max_age := 3600 |})
    end in
  agent ← get_or_create_agent env session_id;
  (if ChatRequest.reset_memory request
   then on_agent agent QaAgent.reset_memory
   else mret tt);;
  response_text ← on_agent agent (QaAgent.achat env (ChatRequest.message request));
  mret ({| ChatResponse.response := response_text;
           ChatResponse.status := "success";
           ChatResponse.session_id := session_id |}, cookie).

(** [POST /reset] *)
Definition reset_memory (env : Env) (session_id : option string)
  : Act Server (list (string * json)) :=
  match session_id with
  | Some token =>
      if String.eqb token EmptyString
      then act_raise (HTTPException 400 "No active session")
      else
        agent ← get_or_create_agent env token;
        on_agent agent QaAgent.reset_memory;;
        mret [ ("message", JStr "Conversation memory has been reset");
               ("status", JStr "success") ]
  | None => act_raise (HTTPException 400 "No active session")
  end.

End Main.

(** * Notions used in the statements *)

(** Position of a column label. *)
Fixpoint index_of (col : string) (cols : list string) : option nat :=
  match cols with
  | [] => None
  | c :: rest => if String.eqb c col then Some 0%nat else S <$> index_of col rest
  end.

(** The cell of [row] under [col]; [None] when it is null or missing. *)
Definition cell (df : DataFrame) (row : list Cell) (col : string) : Cell :=
  i ← index_of col (columns df); mjoin (row !! i).

(** Some row of the table has no value under [col]. *)
Definition null_in (df : DataFrame) (col : string) : Prop :=
  exists row, row ∈ rows df /\ cell df row col = None.

(** The calls of a trace that reached the reasoning loop. *)
Definition invocations (t : list event) : list (AgentExecutor * AgentInput) :=
  omap (fun ev => match ev with
                  | ExecutorInvoke executor agent_input => Some (executor, agent_input)
                  | _ => None
                  end) t.

(** The searches of a trace, with the cap and depth they asked for. *)
Definition searches (t : list event) : list (Z * string) :=
  omap (fun ev => match ev with
                  | TavilySearch _ max_results depth _ => Some (max_results, depth)
                  | _ => None
                  end) t.

(** The section of the search output for result number [i]. *)
Definition result_section (i : nat) (title url content : string) : string :=
  nl +:+ "Result " +:+ pretty i +:+ ":" +:+ nl +:+
  "Title: " +:+ title +:+ nl +:+
  "URL: " +:+ url +:+ nl +:+
  "Content: " +:+ content +:+ nl +:+
  "---" +:+ nl.

(** All the texts of a list, one after the other. *)
Definition concat_all (parts : list string) : string :=
  foldr String.append EmptyString parts.

(** The dictionary entry made from a row. *)
Definition source_of_row (row : QaAgent.SiteRow) : QaAgent.Source :=
  {| QaAgent.source_site := QaAgent.site row;
     QaAgent.source_description := QaAgent.description row |}.

(** The line of the knowledge-sources text for one row. *)
Definition source_line (row : QaAgent.SiteRow) : string :=
  "- " +:+ QaAgent.site row +:+ ": " +:+ QaAgent.description row +:+ nl.

(** The section of the knowledge-sources text for one domain: a heading,
    then the lines of the rows of that domain, in table order. *)
Definition domain_block (rows : list QaAgent.SiteRow) (d : string) : string :=
  nl +:+ "## " +:+ d +:+ nl +:+ nl +:+
  concat_all (source_line <$> filter (fun row => QaAgent.domain row = d) rows) +:+ nl.

(** The distinct elements of a list, in order of first appearance. *)
Definition first_appearances (l : list string) : list string :=
  reverse (remove_dups (reverse l)).

(** The registry names existing objects only, and no object under two
    tokens. *)
Definition registry_valid (server : Main.Server) : Prop :=
  match Main.app_state server with
  | Some state =>
      (forall token agent,
         Main.user_sessions state !! token = Some agent ->
         (agent < length (Main.heap server))%nat) /\
      (forall token1 token2 agent,
         Main.user_sessions state !! token1 = Some agent ->
         Main.user_sessions state !! token2 = Some agent ->
         token1 = token2)
  | None => True
  end.

(** The agent object a token stands for. *)
Definition session_agent (server : Main.Server) (token : string) : option QaAgent.Agent :=
  state ← Main.app_state server;
  agent ← Main.user_sessions state !! token;
  Main.heap server !! agent.

(** The token a chat request runs under: the cookie's, or the new one when
    there is no cookie or an empty one. *)
Definition request_token (uuid4 : string) (session_id : option string) : string :=
  match session_id with
  | Some token => if String.eqb token EmptyString then uuid4 else token
  | None => uuid4
  end.

(** The cookie a chat request sets: none when it came with a token. *)
Definition request_cookie (uuid4 : string) (session_id : option string)
  : option Main.SetCookie :=
  let fresh := Some {| Main.key := "session_id"; Main.value := uuid4;
                       Main.httponly := true; Main.secure := true;
                       Main.samesite := "lax"; Main.max_age := 3600 |} in
  match session_id with
  | Some token => if String.eqb token EmptyString then fresh else None
  | None => fresh
  end.

(** [answer[key]] *)
Fixpoint json_get (key : string) (answer : list (string * Main.json)) : option Main.json :=
  match answer with
  | [] => None
  | (k, v) :: rest => if String.eqb k key then Some v else json_get key rest
  end.

(** * Sample inputs *)

(** A world in which nothing outside the process answers. *)
Definition offline : Env :=
  {| tavily_search := fun _ _ _ _ => Raise (OtherException "offline");
     summarizer_invoke := fun _ => Raise (OtherException "offline");
     chromium_load := fun _ => Raise (OtherException "offline");
     transform_documents := fun _ _ => Raise (OtherException "offline");
     read_csv := fun _ => Raise (OtherException "offline");
     mcp_get_tools := fun _ => Raise (OtherException "offline");
     create_agent_executor := fun _ _ _ => Raise (OtherException "offline");
     executor_ainvoke := fun _ _ => Raise (OtherException "offline") |}.

(** A catalog with the three columns and a row whose domain is null. *)
Definition catalog_null_domain : DataFrame :=
  {| columns := ["site"; "domain"; "description"];
     rows := [[Some "docs.python.org"; None; Some "Python documentation"]] |}.

(** A catalog without the [description] column. *)
Definition catalog_two_columns : DataFrame :=
  {| columns := ["site"; "domain"];
     rows := [[Some "docs.python.org"; Some "python"]] |}.

Definition disk (df : DataFrame) : Env :=
  {| tavily_search := tavily_search offline;
     summarizer_invoke := summarizer_invoke offline;
     chromium_load := chromium_load offline;
     transform_documents := transform_documents offline;
     read_csv := fun _ => Ok df;
     mcp_get_tools := mcp_get_tools offline;
     create_agent_executor := create_agent_executor offline;
     executor_ainvoke := executor_ainvoke offline |}.

Definition sample_config : ClientConfig :=
  {| Client.google_api_key := "g-key";
     Client.llm_temperature := float_0_1;
     Client.llm_max_tokens := 3000;
     Client.llm_timeout := 60;
     Client.request_timeout := 30;
     Client.mcp_server_url := "http://127.0.0.1:8001/mcp" |}.

(** An agent as [__init__] leaves it, with a given history. *)
Definition agent_with_history (h : list BaseMessage) : QaAgent.Agent :=
  {| QaAgent.config := sample_config;
     QaAgent.mcp_server_url := "http://127.0.0.1:8001/mcp";
     QaAgent.sites_df := catalog_null_domain;
     QaAgent.llm := QaAgent.create_llm sample_config;
     QaAgent.chat_history := h;
     QaAgent.mcp_client := None;
     QaAgent.tools := [];
     QaAgent.agent_executor := None |}.

(** Seven stored turns. *)
Definition seven_turns : list BaseMessage :=
  [ HumanMessage "q1"; AIMessage "a1"; HumanMessage "q2"; AIMessage "a2";
    HumanMessage "q3"; AIMessage "a3"; HumanMessage "q4" ].

(** What the loop is handed when ["hello"] follows [seven_turns]. *)
Definition last_five_input : AgentInput :=
  {| input := "hello";
     chat_history_in :=
       [ HumanMessage "q2"; AIMessage "a2"; HumanMessage "q3"; AIMessage "a3";
         HumanMessage "q4" ] |}.

Definition sample_tools : list Tool :=
  [ {| tool_name := "search_documentation"; tool_description := "search" |};
    {| tool_name := "scrape_website"; tool_description := "scrape" |} ].

(** A world whose tool server answers and whose reasoning loop returns
    [response] whatever it is asked. *)
Definition answering (response : result AgentResponse) : Env :=
  {| tavily_search := tavily_search offline;
     summarizer_invoke := summarizer_invoke offline;
     chromium_load := chromium_load offline;
     transform_documents := transform_documents offline;
     read_csv := fun _ => Ok catalog_null_domain;
     mcp_get_tools := fun _ => Ok sample_tools;
     create_agent_executor := fun _ _ _ => Ok {| executor_id := 1 |};
     executor_ainvoke := fun _ _ => response |}.

(** A tool server with the given content limit and default result cap,
    summarization off. *)
Definition sample_server (limit cap : Z) : McpServer.ServerClients :=
  {| McpServer.config :=
       {| McpServer.google_api_key := None;
          McpServer.tavily_api_key := Some "tvly-key";
          McpServer.max_results := cap;
          McpServer.search_depth := "basic";
          McpServer.max_content_size := limit;
          McpServer.max_scrape_length := 10;
          McpServer.enable_search_summarization := false |};
     McpServer.tavily_client := Some {| McpServer.api_key := "tvly-key" |};
     McpServer.summarizer_llm := None |}.

Definition hit (title url content : string) : gmap string string :=
  <["title" := title]> (<["url" := url]> (<["content" := content]> ∅)).

Definition three_hits : list (gmap string string) :=
  [ hit "T1" "http://a" "abcdefgh"; hit "T2" "http://b" "abc"; hit "T3" "http://c" "xyz" ].

(** A world whose search provider gives [response] to every query. *)
Definition searching (response : result SearchResponse) : Env :=
  {| tavily_search := fun _ _ _ _ => response;
     summarizer_invoke := summarizer_invoke offline;
     chromium_load := chromium_load offline;
     transform_documents := transform_documents offline;
     read_csv := read_csv offline;
     mcp_get_tools := mcp_get_tools offline;
     create_agent_executor := create_agent_executor offline;
     executor_ainvoke := executor_ainvoke offline |}.

(** A world whose browser gives [loaded] and whose extractor gives
    [extracted]. *)
Definition browsing (loaded extracted : result (list Document)) : Env :=
  {| tavily_search := tavily_search offline;
     summarizer_invoke := summarizer_invoke offline;
     chromium_load := fun _ => loaded;
     transform_documents := fun _ _ => extracted;
     read_csv := read_csv offline;
     mcp_get_tools := mcp_get_tools offline;
     create_agent_executor := create_agent_executor offline;
     executor_ainvoke := executor_ainvoke offline |}.

(** A front door with one session, ["abc"], whose agent holds seven
    turns. *)
Definition one_session_state : Main.AppState :=
  {| Main.user_sessions := {[ "abc" := 0%nat ]}; Main.config := sample_config |}.

Definition one_session : Main.Server :=
  {| Main.heap := [agent_with_history seven_turns];
     Main.app_state := Some one_session_state |}.

(** An environment for the front door: a credential, a token budget that
    [int] rejects and a timeout that it accepts. *)
Definition front_door_environ : gmap string string :=
  <["GOOGLE_API_KEY" := "g-key"]>
    (<["LLM_MAX_TOKENS" := "many"]> (<["LLM_TIMEOUT" := "90"]> ∅)).

(** A literal of [n] digits. *)
Definition nines (n : nat) : string :=
  String.string_of_list_ascii (replicate n "9"%char).

(** The no-break space, and the file separator control. *)
Definition no_break_space : ascii := Ascii.ascii_of_nat 160.
Definition file_separator : ascii := Ascii.ascii_of_nat 28.

(** A decimal parser that knows one text. *)
Definition parse_half (s : string) : option pyfloat :=
  if String.eqb s "0.5" then Some (Finite 1 (-1)) else None.

(** An environment for the tool server, summarization requested in upper
    case. *)
Definition tool_server_environ : gmap string string :=
  <["TAVILY_API_KEY" := "tvly-key"]>
    (<["GOOGLE_API_KEY" := "g-key"]>
       (<["ENABLE_SEARCH_SUMMARIZATION" := "TRUE"]> (<["MAX_RESULTS" := "3"]> ∅))).

Definition sample_summarizer : McpServer.SummarizerLLM :=
  {| McpServer.model := "gemini-2.0-flash-lite";
     McpServer.temperature := float_0_1;
     McpServer.max_tokens := 1000;
     McpServer.llm_google_api_key := "g-key" |}.

(** A tool server with summarization on. *)
Definition summarizing_server : McpServer.ServerClients :=
  {| McpServer.config :=
       {| McpServer.google_api_key := Some "g-key";
          McpServer.tavily_api_key := Some "tvly-key";
          McpServer.max_results := 10;
          McpServer.search_depth := "basic";
          McpServer.max_content_size := 5;
          McpServer.max_scrape_length := 10;
          McpServer.enable_search_summarization := true |};
     McpServer.tavily_client := Some {| McpServer.api_key := "tvly-key" |};
     McpServer.summarizer_llm := Some sample_summarizer |}.

(** A world whose search provider gives [response] and whose summarizer
    answers [summary], whatever they are asked. *)
Definition summarizing (response : result SearchResponse) (summary : string) : Env :=
  {| tavily_search := fun _ _ _ _ => response;
     summarizer_invoke := fun _ => Ok summary;
     chromium_load := chromium_load offline;
     transform_documents := transform_documents offline;
     read_csv := read_csv offline;
     mcp_get_tools := mcp_get_tools offline;
     create_agent_executor := create_agent_executor offline;
     executor_ainvoke := executor_ainvoke offline |}.

(** A catalog of three rows over two domains. *)
Definition three_rows : list QaAgent.SiteRow :=
  [ {| QaAgent.site := "docs.python.org"; QaAgent.domain := "python";
       QaAgent.description := "Python docs" |};
    {| QaAgent.site := "fastapi.tiangolo.com"; QaAgent.domain := "web";
       QaAgent.description := "FastAPI docs" |};
    {| QaAgent.site := "peps.python.org"; QaAgent.domain := "python";
       QaAgent.description := "PEPs" |} ].

(** * Tactics *)

(** Unfold the action combinators. *)
Ltac act_unfold :=
  unfold mbind, mret, act_mbind, act_mret, act_bind, act_ret, act_raise,
         try_except, call, get_state, put_state, lift_result, QaAgent.modify in *.

(** Read the three parts of a run. *)
Ltac projections :=
  unfold trace_of, outcome_of, state_of in *; cbn [fst snd] in *.

(** * Properties *)

(** ** Texts *)

Lemma append_cons (c : ascii) (s1 s2 : string) :
  String c s1 +:+ s2 = String c (s1 +:+ s2).
Proof. reflexivity. Qed.

Lemma append_empty_r (s : string) : s +:+ EmptyString = s.
Proof.
  induction s as [|c s IH]; [reflexivity|].
  by rewrite append_cons, IH.
Qed.

Lemma append_assoc (s1 s2 s3 : string) : (s1 +:+ s2) +:+ s3 = s1 +:+ s2 +:+ s3.
Proof.
  induction s1 as [|c s1 IH]; [reflexivity|].
  by rewrite !append_cons, IH.
Qed.

Lemma length_prefix (n : nat) (s : string) :
  (n <= String.length s)%nat -> String.length (String.substring 0 n s) = n.
Proof.
  revert n. induction s as [|c s IH]; intros [|n] Hn; cbn in *; try reflexivity; try lia.
  f_equal. apply IH. lia.
Qed.

Lemma prefix_all (n : nat) (s : string) :
  (String.length s <= n)%nat -> String.substring 0 n s = s.
Proof.
  revert n. induction s as [|c s IH]; intros [|n] Hn; cbn in *; try reflexivity; try lia.
  f_equal. apply IH. lia.
Qed.

Lemma contains_here (pre sub post : string) : PyStr.contains sub (pre +:+ sub +:+ post).
Proof. by exists pre, post. Qed.

Lemma contains_at_end (pre sub : string) : PyStr.contains sub (pre +:+ sub).
Proof. exists pre, EmptyString. by rewrite append_empty_r. Qed.

(** A non-negative bound within the text cuts exactly that many
    characters. *)
Lemma slice_to_length (s : string) (stop : Z) :
  0 <= stop <= PyStr.len s ->
  PyStr.len (PyStr.slice_to s stop) = stop.
Proof.
  intros [H0 H1]. unfold PyStr.slice_to, PyStr.len in *.
  destruct (Z.ltb_spec stop 0) as [?|_]; [lia|].
  rewrite Z.min_l by lia. rewrite length_prefix by lia. lia.
Qed.

Lemma slice_to_prefix (s : string) (stop : Z) :
  0 <= stop -> PyStr.slice_to s stop = String.substring 0 (Z.to_nat stop) s.
Proof.
  intros H0. unfold PyStr.slice_to, PyStr.len.
  destruct (Z.ltb_spec stop 0) as [?|_]; [lia|].
  destruct (Z.le_gt_cases stop (Z.of_nat (String.length s))) as [Hle|Hgt].
  - by rewrite Z.min_l.
  - rewrite Z.min_r by lia. rewrite Nat2Z.id.
    rewrite !prefix_all; [reflexivity | lia | lia].
Qed.

(** ** Lists *)

Lemma list_slice_to_take {A} (l : list A) (stop : Z) :
  0 <= stop -> PyList.slice_to l stop = take (Z.to_nat stop) l.
Proof.
  intros H0. unfold PyList.slice_to, PyList.len.
  destruct (Z.ltb_spec stop 0) as [?|_]; [lia|].
  destruct (Z.le_gt_cases stop (Z.of_nat (length l))) as [Hle|Hgt].
  - by rewrite Z.min_l.
  - rewrite Z.min_r by lia. rewrite Nat2Z.id.
    rewrite !take_ge; [reflexivity | lia | lia].
Qed.

Lemma list_slice_last_five {A} (l : list A) :
  PyList.slice_from l (-5) = drop (length l - 5) l.
Proof.
  unfold PyList.slice_from, PyList.len. cbn [Z.ltb Z.compare].
  f_equal. lia.
Qed.

(** ** The builtins on sample texts *)

Example int_plain : PyInt.int "3000" = Ok 3000.
Proof. reflexivity. Qed.

Example int_spaces_sign_underscore : PyInt.int " -1_000 " = Ok (-1000).
Proof. reflexivity. Qed.

Example int_rejects_word :
  PyInt.int "abc" = Raise (ValueError "invalid literal for int() with base 10: 'abc'").
Proof. reflexivity. Qed.

Example int_rejects_decimal_point : is_ok (PyInt.int "3.5") = false.
Proof. reflexivity. Qed.

Example int_rejects_empty : is_ok (PyInt.int EmptyString) = false.
Proof. reflexivity. Qed.

Example int_strips_no_break_space : PyInt.int (String no_break_space "12") = Ok 12.
Proof. reflexivity. Qed.

Example int_keeps_file_separator :
  PyInt.int (String file_separator "12")
  = Raise (ValueError "invalid literal for int() with base 10: '\x1c12'").
Proof. reflexivity. Qed.

Example int_rejects_inner_space : is_ok (PyInt.int "1 2") = false.
Proof. reflexivity. Qed.

Example int_digit_limit :
  is_ok (PyInt.int (nines 4300)) = true /\
  PyInt.int (nines 4301)
  = Raise (ValueError "Exceeds the limit (4300 digits) for integer string conversion: value has 4301 digits; use sys.set_int_max_str_digits() to increase the limit").
Proof. split; vm_compute; reflexivity. Qed.

Example repr_escapes_no_break_space :
  PyStr.repr (String no_break_space "a") = "'\xa0a'".
Proof. reflexivity. Qed.

Example repr_list_of_two :
  QaAgent.repr_list [String no_break_space "a"; "b"] = "['\xa0a', 'b']".
Proof. reflexivity. Qed.

Example slice_negative_bound : PyStr.slice_to "abcdefgh" (-3) = "abcde".
Proof. reflexivity. Qed.

Example last_five_of_seven :
  PyList.slice_from [1; 2; 3; 4; 5; 6; 7] (-5) = [3; 4; 5; 6; 7].
Proof. reflexivity. Qed.

(** ** Configuration (C1) *)

(** [int] returns the value [PyInt.parse] gives, and raises [ValueError]
    where it gives none. *)
Lemma int_parse_some (s : string) (z : Z) :
  PyInt.parse s = Some z -> PyInt.int s = Ok z.
Proof. unfold PyInt.parse. destruct (PyInt.int s); intros H; by simplify_eq. Qed.

Lemma int_parse_none (s : string) :
  PyInt.parse s = None -> exists msg, PyInt.int s = Raise (ValueError msg).
Proof.
  unfold PyInt.parse, PyInt.int.
  destruct (PyInt.scan s) as [[[z count] rest]|]; [|eauto].
  destruct (PyInt.max_str_digits <? count)%nat; [eauto|].
  destruct (PyInt.lstrip rest); [done|eauto].
Qed.

Section FrontDoorConfig.
Variable environ : gmap string string.
Variable parse_float : string -> option pyfloat.

(** A variable that is not set gives the default. *)
Lemma get_env_with_fallback_unset {A} key (fallback : A) converter :
  environ !! key = None ->
  Main.get_env_with_fallback environ key fallback converter = Ok fallback.
Proof. intros H. unfold Main.get_env_with_fallback. by rewrite H. Qed.

(** A text that [int] rejects gives the default. *)
Lemma get_env_with_fallback_invalid_int key fallback value :
  environ !! key = Some value ->
  PyInt.parse value = None ->
  Main.get_env_with_fallback environ key fallback PyInt.int = Ok fallback.
Proof.
  intros H Hp. destruct (int_parse_none _ Hp) as [msg Hmsg].
  unfold Main.get_env_with_fallback. by rewrite H, Hmsg.
Qed.

(** A text that [float] rejects gives the default. *)
Lemma get_env_with_fallback_invalid_float key fallback value :
  environ !! key = Some value ->
  parse_float value = None ->
  Main.get_env_with_fallback environ key fallback (PyFloat.float parse_float) = Ok fallback.
Proof.
  intros H Hp. unfold Main.get_env_with_fallback, PyFloat.float. by rewrite H, Hp.
Qed.

Lemma get_env_with_fallback_int_total key fallback :
  exists n, Main.get_env_with_fallback environ key fallback PyInt.int = Ok n.
Proof.
  unfold Main.get_env_with_fallback.
  destruct (environ !! key) as [value|]; [|eauto].
  destruct (PyInt.parse value) as [z|] eqn:Hp.
  - rewrite (int_parse_some _ _ Hp). eauto.
  - destruct (int_parse_none _ Hp) as [msg ->]. eauto.
Qed.

Lemma get_env_with_fallback_float_total key fallback :
  exists f, Main.get_env_with_fallback environ key fallback (PyFloat.float parse_float) = Ok f.
Proof.
  unfold Main.get_env_with_fallback, PyFloat.float.
  destruct (environ !! key) as [value|]; [|eauto].
  destruct (parse_float value); eauto.
Qed.

(** The front door starts whatever the numeric variables hold, once the
    credential is accepted. *)
Lemma create_config_numbers_never_fail key url :
  Main.validate_client_config environ = Ok (key, url) ->
  exists config, Main.create_config environ parse_float = Ok config.
Proof.
  intros Hv. unfold Main.create_config, Main.build_config.
  rewrite Hv. cbn.
  destruct (get_env_with_fallback_float_total "LLM_TEMPERATURE" float_0_1) as [t ->].
  destruct (get_env_with_fallback_int_total "LLM_MAX_TOKENS" 3000) as [m ->].
  destruct (get_env_with_fallback_int_total "LLM_TIMEOUT" 60) as [lt ->].
  destruct (get_env_with_fallback_int_total "REQUEST_TIMEOUT" 30) as [rt ->].
  cbn. eauto.
Qed.

End FrontDoorConfig.

(** The tool server has no such fallback: a numeric variable that [int]
    rejects stops [ServerClients()]. *)
Lemma int_raises_only_value_error (s : string) (e : exn) :
  PyInt.int s = Raise e -> exists msg, e = ValueError msg.
Proof.
  destruct (PyInt.parse s) as [z|] eqn:Hp.
  - rewrite (int_parse_some _ _ Hp). done.
  - destruct (int_parse_none _ Hp) as [msg ->]. intros [=<-]. eauto.
Qed.

Lemma int_then_value_error {B} (s : string) (f : Z -> result B) :
  (forall n, PyInt.int s = Ok n -> exists msg, f n = Raise (ValueError msg)) ->
  exists msg, PyInt.int s ≫= f = Raise (ValueError msg).
Proof.
  intros Hf. destruct (PyInt.int s) as [n|e] eqn:E; cbn.
  - by apply Hf.
  - apply int_raises_only_value_error in E as [msg ->]. eauto.
Qed.

Lemma server_clients_invalid_number key value (environ : gmap string string) :
  key ∈ ["MAX_RESULTS"; "MAX_CONTENT_SIZE"; "MAX_SCRAPE_LENGTH"] ->
  environ !! key = Some value ->
  PyInt.parse value = None ->
  exists msg, McpServer.load_server_clients environ = Raise (ValueError msg).
Proof.
  intros Hkey Hset Hbad.
  assert (Hint : forall B (f : Z -> result B),
             exists msg, PyInt.int value ≫= f = Raise (ValueError msg)).
  { intros B f. destruct (int_parse_none _ Hbad) as [msg ->]. cbn. eauto. }
  assert (Hinit : exists msg, McpServer.ServerClients_init environ = Raise (ValueError msg)).
  { unfold McpServer.ServerClients_init, getenv_or.
    set_unfold in Hkey.
    destruct Hkey as [->|[->|[->|[]]]]; rewrite Hset; cbn [from_option id].
    - apply Hint.
    - apply int_then_value_error. intros ? _. apply Hint.
    - apply int_then_value_error. intros ? _.
      apply int_then_value_error. intros ? _. apply Hint. }
  destruct Hinit as [msg Hinit].
  unfold McpServer.load_server_clients. rewrite Hinit. eauto.
Qed.

(** C1 (tool-server half, on the failing input).  With [TAVILY_API_KEY] set
    and [MAX_RESULTS=abc], loading the tool server's configuration raises
    [ValueError] instead of falling back to the default [10]. *)
Theorem server_clients_max_results_abc_raises :
  McpServer.load_server_clients
    (<["TAVILY_API_KEY" := "tvly-key"]> (<["MAX_RESULTS" := "abc"]> ∅))
  = Raise (ValueError "invalid literal for int() with base 10: 'abc'").
Proof. vm_compute. reflexivity. Qed.

(** The same variable, under its front-door handling, gives the default. *)
Example front_door_llm_max_tokens_abc :
  Main.get_env_with_fallback (<["LLM_MAX_TOKENS" := "abc"]> ∅) "LLM_MAX_TOKENS" 3000 PyInt.int
  = Ok 3000.
Proof. vm_compute. reflexivity. Qed.

(** The front door reads a number between no-break spaces, and falls back
    to the default on one of 4301 digits. *)
Example front_door_llm_timeout_no_break_space :
  Main.get_env_with_fallback (<["LLM_TIMEOUT" := String no_break_space "12"]> ∅)
    "LLM_TIMEOUT" 60 PyInt.int
  = Ok 12.
Proof. vm_compute. reflexivity. Qed.

Example front_door_llm_timeout_too_long :
  Main.get_env_with_fallback (<["LLM_TIMEOUT" := nines 4301]> ∅) "LLM_TIMEOUT" 60 PyInt.int
  = Ok 60.
Proof. vm_compute. reflexivity. Qed.

(** ** The catalog (C2) *)

Lemma missing_columns_nil (cols : list string) :
  filter (fun col => col ∉ cols) QaAgent.required_columns = []
  <-> forall c, c ∈ QaAgent.required_columns -> c ∈ cols.
Proof.
  split.
  - intros Hnil c Hc. destruct (decide (c ∈ cols)) as [|Hn]; [done|].
    exfalso. eapply (filter_nil_not_elem_of _ _ c Hnil); done.
  - intros Hall.
    destruct (filter (fun col => col ∉ cols) QaAgent.required_columns) as [|c rest] eqn:E;
      [done|].
    assert (Hc : c ∈ filter (fun col => col ∉ cols) QaAgent.required_columns).
    { rewrite E. left. }
    apply list_elem_of_filter in Hc as [Hn Hc]. destruct Hn. by apply Hall.
Qed.

(** What [load_sites_data] does, step by step. *)
Lemma load_sites_data_run {S} env path (s : S) :
  QaAgent.load_sites_data env path s =
  match read_csv env path with
  | Ok df =>
      match filter (fun col => col ∉ columns df) QaAgent.required_columns with
      | [] => ([ReadCsv path], Ok df, s)
      | missing =>
          ([ReadCsv path],
           Raise (ValueError ("Missing required columns: " +:+ QaAgent.repr_list missing)), s)
      end
  | Raise e => ([ReadCsv path], Raise e, s)
  end.
Proof.
  unfold QaAgent.load_sites_data, mbind, act_mbind, act_bind, call.
  destruct (read_csv env path) as [df|e]; [|reflexivity].
  by destruct (filter (fun col => col ∉ columns df) QaAgent.required_columns).
Qed.

(** A failed read is passed on. *)
Lemma load_sites_data_read_error {S} env path (s : S) e :
  read_csv env path = Raise e ->
  QaAgent.load_sites_data env path s = ([ReadCsv path], Raise e, s).
Proof. intros H. by rewrite load_sites_data_run, H. Qed.

(** C2 as stated fails: the table [catalog_null_domain] has all three
    columns and a row whose [domain] is null, and it is loaded and
    returned. *)
Lemma load_sites_data_accepts_null_cell :
  null_in catalog_null_domain "domain" /\
  outcome_of (QaAgent.load_sites_data (disk catalog_null_domain) "sites_data.csv" tt)
  = Ok catalog_null_domain.
Proof.
  split; [|reflexivity].
  exists [Some "docs.python.org"; None; Some "Python documentation"].
  split; [left | reflexivity].
Qed.

(** C2, amended.  Once the table is read, loading raises [ValueError]
    exactly when one of [site], [domain], [description] is not among its
    columns; otherwise the table is returned as read, whatever its cells
    hold. *)
Theorem load_sites_data_checks_columns {S} env path (s : S) df :
  read_csv env path = Ok df ->
  let r := QaAgent.load_sites_data env path s in
  ((forall c, c ∈ QaAgent.required_columns -> c ∈ columns df) ->
     outcome_of r = Ok df) /\
  ((exists c, c ∈ QaAgent.required_columns /\ c ∉ columns df) ->
     exists msg, outcome_of r = Raise (ValueError msg)).
Proof.
  intros Hread r. subst r.
  rewrite load_sites_data_run, Hread. unfold outcome_of.
  destruct (filter (fun col => col ∉ columns df) QaAgent.required_columns)
    as [|c0 rest] eqn:E.
  - split; [done|].
    intros (c & Hc & Hn). destruct Hn.
    by apply (proj1 (missing_columns_nil (columns df)) E).
  - split; [|eauto].
    intros Hall. apply missing_columns_nil in Hall. congruence.
Qed.

Lemma load_sites_data_checks_columns_witness :
  (outcome_of (QaAgent.load_sites_data (disk catalog_null_domain) "sites_data.csv" tt)
   = Ok catalog_null_domain) /\
  (exists msg,
     outcome_of (QaAgent.load_sites_data (disk catalog_two_columns) "sites_data.csv" tt)
     = Raise (ValueError msg)).
Proof.
  split.
  - apply (load_sites_data_checks_columns (disk catalog_null_domain) "sites_data.csv" tt
             catalog_null_domain eq_refl).
    intros c Hc. exact Hc.
  - apply (load_sites_data_checks_columns (disk catalog_two_columns) "sites_data.csv" tt
             catalog_two_columns eq_refl).
    exists "description". split; by apply (bool_decide_unpack _).
Defined.

(** ** The agent (C3, C4, C8) *)

Lemma context_turns_last_five (h : list BaseMessage) :
  QaAgent.context_turns h = drop (length h - 5) h.
Proof.
  destruct h as [|m h]; [reflexivity|].
  unfold QaAgent.context_turns. apply list_slice_last_five.
Qed.

Lemma context_turns_length (h : list BaseMessage) :
  length (QaAgent.context_turns h) = Nat.min 5 (length h).
Proof. rewrite context_turns_last_five, length_drop. lia. Qed.

(** What [_initialize_mcp_client] does, step by step. *)
Lemma initialize_mcp_client_run env (self : QaAgent.Agent) :
  QaAgent._initialize_mcp_client env self =
  match QaAgent.mcp_client self with
  | Some _ => ([], Ok tt, self)
  | None =>
      let url := QaAgent.mcp_server_url self in
      let self1 :=
        QaAgent.set_mcp_client
          (Some {| QaAgent.connection_url := url;
                   QaAgent.connection_transport := "streamable_http" |}) self in
      match mcp_get_tools env url with
      | Raise e => ([McpGetTools url], Raise e, self1)
      | Ok tools =>
          let self2 := QaAgent.set_tools tools self1 in
          let made := CreateAgentExecutor (QaAgent.sites_df self) (QaAgent.config self) tools in
          match create_agent_executor env (QaAgent.sites_df self) (QaAgent.config self) tools with
          | Raise e => ([McpGetTools url; made], Raise e, self2)
          | Ok executor =>
              ([McpGetTools url; made], Ok tt, QaAgent.set_agent_executor (Some executor) self2)
          end
      end
  end.
Proof.
  unfold QaAgent._initialize_mcp_client, QaAgent._create_agent. act_unfold.
  destruct (QaAgent.mcp_client self); [reflexivity|]. cbn.
  destruct (mcp_get_tools env _); [|reflexivity]. cbn.
  destruct (create_agent_executor env _ _ _); reflexivity.
Qed.

(** Initialization leaves the history alone and never reaches the
    reasoning loop. *)
Lemma initialize_mcp_client_keeps_history env (self : QaAgent.Agent) :
  QaAgent.chat_history (state_of (QaAgent._initialize_mcp_client env self))
  = QaAgent.chat_history self
  /\ invocations (trace_of (QaAgent._initialize_mcp_client env self)) = [].
Proof.
  rewrite initialize_mcp_client_run.
  destruct (QaAgent.mcp_client self); [done|]. cbn.
  destruct (mcp_get_tools env _); [|done].
  destruct (create_agent_executor env _ _ _); done.
Qed.

(** What the [try] block of [achat] does once initialization is over. *)
Lemma achat_body_run env (self : QaAgent.Agent) (u : string) :
  QaAgent.achat_body env u self =
  match QaAgent._initialize_mcp_client env self with
  | (t, Raise e, self1) => (t, Raise e, self1)
  | (t, Ok _, self1) =>
      let agent_input :=
        {| input := u; chat_history_in := QaAgent.context_turns (QaAgent.chat_history self1) |} in
      match QaAgent.agent_executor self1 with
      | None =>
          (t ++ [], Raise (AttributeError "'NoneType' object has no attribute 'ainvoke'"), self1)
      | Some executor =>
          match executor_ainvoke env executor agent_input with
          | Raise e => (t ++ [ExecutorInvoke executor agent_input], Raise e, self1)
          | Ok response =>
              let answer := default QaAgent.fallback_answer (output response) in
              (t ++ [ExecutorInvoke executor agent_input], Ok answer,
               QaAgent.set_chat_history
                 (QaAgent.chat_history self1 ++ [HumanMessage u; AIMessage answer]) self1)
          end
      end
  end.
Proof.
  unfold QaAgent.achat_body. act_unfold.
  destruct (QaAgent._initialize_mcp_client env self) as [[t [[]|e]] self1]; [|reflexivity].
  cbn. destruct (QaAgent.agent_executor self1) as [executor|]; [|reflexivity]. cbn.
  destruct (executor_ainvoke env executor _); reflexivity.
Qed.

Lemma achat_run env (self : QaAgent.Agent) (u : string) :
  QaAgent.achat env u self =
  match QaAgent.achat_body env u self with
  | (t, Raise e, self1) => (t, Ok ("Error: " +:+ exn_str e), self1)
  | finished => finished
  end.
Proof.
  unfold QaAgent.achat. act_unfold.
  destruct (QaAgent.achat_body env u self) as [[t [answer|e]] self1]; [reflexivity|].
  by rewrite app_nil_r.
Qed.

(** [achat] never raises. *)
Lemma achat_never_raises env (self : QaAgent.Agent) (u : string) :
  exists text, outcome_of (QaAgent.achat env u self) = Ok text.
Proof.
  rewrite achat_run.
  destruct (QaAgent.achat_body env u self) as [[t [answer|e]] self1]; cbn; eauto.
Qed.

(** An exception leaves the [try] block before the history is touched. *)
Lemma achat_body_raise_keeps_history env (self : QaAgent.Agent) (u : string) e :
  outcome_of (QaAgent.achat_body env u self) = Raise e ->
  QaAgent.chat_history (state_of (QaAgent.achat_body env u self)) = QaAgent.chat_history self.
Proof.
  rewrite achat_body_run.
  destruct (initialize_mcp_client_keeps_history env self) as [Hh _].
  destruct (QaAgent._initialize_mcp_client env self) as [[t [[]|e0]] self1]; cbn in *; [|done].
  destruct (QaAgent.agent_executor self1) as [executor|]; [|done].
  destruct (executor_ainvoke env executor _); cbn; [discriminate | done].
Qed.

(** C3.  When an exception leaves the [try] block of [achat] (raised by the
    MCP initialization, by the reasoning loop or anywhere between), [achat]
    returns the text ["Error: "] followed by the exception's message instead
    of raising, and the stored history is what it was before the call. *)
Theorem achat_exception_becomes_text env (self : QaAgent.Agent) (u : string) e :
  outcome_of (QaAgent.achat_body env u self) = Raise e ->
  outcome_of (QaAgent.achat env u self) = Ok ("Error: " +:+ exn_str e) /\
  QaAgent.chat_history (state_of (QaAgent.achat env u self)) = QaAgent.chat_history self.
Proof.
  intros Hraise.
  pose proof (achat_body_raise_keeps_history env self u e Hraise) as Hkeep.
  rewrite achat_run.
  destruct (QaAgent.achat_body env u self) as [[t [answer|e0]] self1]; cbn in *.
  - discriminate.
  - injection Hraise as ->. done.
Qed.

Lemma achat_exception_becomes_text_witness :
  outcome_of (QaAgent.achat offline "hello" (agent_with_history seven_turns))
  = Ok "Error: offline" /\
  QaAgent.chat_history (state_of (QaAgent.achat offline "hello" (agent_with_history seven_turns)))
  = seven_turns.
Proof.
  apply (achat_exception_becomes_text offline (agent_with_history seven_turns) "hello"
           (OtherException "offline")).
  reflexivity.
Defined.

Lemma invocations_app (t1 t2 : list event) :
  invocations (t1 ++ t2) = invocations t1 ++ invocations t2.
Proof. unfold invocations. apply omap_app. Qed.

(** A chat call either stops before the reasoning loop, or reaches it once,
    with the user text and the last five stored turns, and then follows the
    loop's outcome. *)
Lemma achat_cases env (self : QaAgent.Agent) (u : string) :
  let h := QaAgent.chat_history self in
  let r := QaAgent.achat env u self in
  let agent_input := {| input := u; chat_history_in := drop (length h - 5) h |} in
  invocations (trace_of r) = [] \/
  exists executor,
    invocations (trace_of r) = [(executor, agent_input)] /\
    match executor_ainvoke env executor agent_input with
    | Ok response =>
        let answer := default QaAgent.fallback_answer (output response) in
        outcome_of r = Ok answer /\
        QaAgent.chat_history (state_of r) = h ++ [HumanMessage u; AIMessage answer]
    | Raise e =>
        outcome_of r = Ok ("Error: " +:+ exn_str e) /\
        QaAgent.chat_history (state_of r) = h
    end.
Proof.
  intros h r agent_input. subst h r agent_input.
  rewrite achat_run, achat_body_run.
  destruct (initialize_mcp_client_keeps_history env self) as [Hh Ht].
  destruct (QaAgent._initialize_mcp_client env self) as [[t [[]|e0]] self1];
    projections.
  2:{ by left. }
  destruct (QaAgent.agent_executor self1) as [ex|]; cbn beta iota zeta.
  2:{ left. cbn [fst snd]. by rewrite invocations_app, Ht. }
  right. exists ex.
  rewrite Hh, context_turns_last_five.
  set (ai := {| input := u; chat_history_in := _ |}).
  destruct (executor_ainvoke env ex ai) as [response|e] eqn:Hloop;
    cbn [fst snd]; rewrite invocations_app, Ht; by rewrite ?Hh.
Qed.

(** C4.  When a chat call reaches the reasoning loop, it does so once, with
    the new user text and exactly the last five stored turns (all of them
    when there are fewer).  If the loop returns, the call answers with the
    loop's output, or with the placeholder when there is none, and the stored
    history is the whole former history followed by the user turn and the
    assistant turn; if the loop raises, the history stays as it was. *)
Theorem achat_context_and_history env (self : QaAgent.Agent) (u : string)
    (executor : AgentExecutor) (agent_input : AgentInput) :
  (executor, agent_input) ∈ invocations (trace_of (QaAgent.achat env u self)) ->
  let h := QaAgent.chat_history self in
  let r := QaAgent.achat env u self in
  invocations (trace_of r) = [(executor, agent_input)] /\
  agent_input = {| input := u; chat_history_in := drop (length h - 5) h |} /\
  length (chat_history_in agent_input) = Nat.min 5 (length h) /\
  match executor_ainvoke env executor agent_input with
  | Ok response =>
      let answer := default QaAgent.fallback_answer (output response) in
      outcome_of r = Ok answer /\
      QaAgent.chat_history (state_of r) = h ++ [HumanMessage u; AIMessage answer]
  | Raise e =>
      outcome_of r = Ok ("Error: " +:+ exn_str e) /\
      QaAgent.chat_history (state_of r) = h
  end.
Proof.
  intros Hin h r. subst h r.
  destruct (achat_cases env self u) as [Hnone|(ex & Hone & Hloop)].
  - rewrite Hnone in Hin. by apply elem_of_nil in Hin.
  - rewrite Hone in Hin. apply list_elem_of_singleton in Hin.
    injection Hin as -> ->.
    repeat split; [exact Hone | | exact Hloop].
    cbn [chat_history_in]. rewrite length_drop. lia.
Qed.

Lemma achat_context_and_history_witness :
  invocations (trace_of (QaAgent.achat (answering (Ok {| output := None |})) "hello"
                           (agent_with_history seven_turns)))
  = [({| executor_id := 1 |}, last_five_input)] /\
  outcome_of (QaAgent.achat (answering (Ok {| output := None |})) "hello"
                (agent_with_history seven_turns))
  = Ok "I couldn't process your request." /\
  QaAgent.chat_history
    (state_of (QaAgent.achat (answering (Ok {| output := None |})) "hello"
                 (agent_with_history seven_turns)))
  = seven_turns ++ [HumanMessage "hello"; AIMessage "I couldn't process your request."].
Proof.
  assert (Hin : ({| executor_id := 1 |}, last_five_input)
                ∈ invocations
                    (trace_of (QaAgent.achat (answering (Ok {| output := None |})) "hello"
                                 (agent_with_history seven_turns)))).
  { vm_compute. left. }
  destruct (achat_context_and_history _ _ _ _ _ Hin) as (H1 & _ & _ & H2).
  split; [exact H1|]. exact H2.
Defined.

(** C8.  [reset_memory] leaves an empty history, a second call changes
    nothing more, and a chat call that follows hands the reasoning loop no
    prior turn. *)
Theorem reset_memory_idempotent env (self : QaAgent.Agent) (u : string) :
  let once := state_of (QaAgent.reset_memory self) in
  state_of (QaAgent.reset_memory once) = once /\
  outcome_of (QaAgent.reset_memory self) = Ok tt /\
  QaAgent.chat_history once = [] /\
  QaAgent.context_turns (QaAgent.chat_history once) = [] /\
  Forall (fun call => chat_history_in call.2 = [])
         (invocations (trace_of (QaAgent.achat env u once))).
Proof.
  intros once.
  assert (Hempty : QaAgent.chat_history once = []) by reflexivity.
  repeat split.
  destruct (achat_cases env once u) as [->|(ex & -> & _)].
  - constructor.
  - constructor; [|constructor]. cbn [snd chat_history_in]. by rewrite Hempty.
Qed.

(** ** The search tool (C5, C7, C10) *)

(** What [search_documentation] does, step by step. *)
Lemma search_documentation_run env query sites max_results depth
    (server_clients : McpServer.ServerClients) :
  McpServer.search_documentation env query sites max_results depth server_clients =
  let config := McpServer.config server_clients in
  let final_max_results := int_or max_results (McpServer.max_results config) in
  let final_depth := str_or depth (McpServer.search_depth config) in
  let asked := TavilySearch query final_max_results final_depth sites in
  match McpServer.tavily_client server_clients with
  | None =>
      ([], Ok ("❌ Search error: 'NoneType' object has no attribute 'search'"), server_clients)
  | Some _ =>
      match tavily_search env query final_max_results final_depth sites with
      | Raise e => ([asked], Ok ("❌ Search error: " +:+ exn_str e), server_clients)
      | Ok response =>
          match results response with
          | None | Some [] => ([asked], Ok McpServer.no_results_message, server_clients)
          | Some found =>
              let final_result :=
                PyStr.join nl
                  (McpServer.format_search_results
                     (PyList.slice_to found final_max_results)
                     (McpServer.max_content_size config)) in
              if McpServer.enable_search_summarization config
                 && bool_decide (is_Some (McpServer.summarizer_llm server_clients))
              then
                let prompt := McpServer.create_summary_prompt final_result query in
                match summarizer_invoke env prompt with
                | Ok summarized_result =>
                    ([asked; SummarizerInvoke prompt],
                     Ok (if PyStr.len final_result =? 0 then final_result
                         else summarized_result),
                     server_clients)
                | Raise _ => ([asked; SummarizerInvoke prompt], Ok final_result, server_clients)
                end
              else ([asked], Ok final_result, server_clients)
          end
      end
  end.
Proof.
  unfold McpServer.search_documentation, McpServer.search_documentation_body,
    McpServer.summarize.
  act_unfold. cbn beta iota zeta.
  destruct (McpServer.tavily_client server_clients); [|reflexivity].
  destruct (tavily_search env query _ _ sites) as [[[[|r found]|]]|e]; try reflexivity.
  cbn [results].
  destruct (McpServer.enable_search_summarization _ && _); [|reflexivity].
  match goal with
  | |- context [summarizer_invoke env ?prompt] =>
      destruct (summarizer_invoke env prompt); [|reflexivity]
  end.
  match goal with
  | |- context [PyStr.len ?text =? 0] => destruct (PyStr.len text =? 0); reflexivity
  end.
Qed.

Lemma format_from_length i results limit :
  length (McpServer.format_from i results limit) = length results.
Proof.
  revert i. induction results as [|r rest IH]; intros i; cbn; [done|]. by rewrite IH.
Qed.

Lemma format_from_lookup i results limit (k : nat) :
  McpServer.format_from i results limit !! k
  = (fun r => McpServer.format_result (i + k) r limit) <$> results !! k.
Proof.
  revert i k. induction results as [|r rest IH]; intros i [|k]; cbn; try done.
  - by rewrite Nat.add_0_r.
  - rewrite IH. by rewrite Nat.add_succ_r.
Qed.

(** The content shown for a result: cut at a non-negative limit and
    marked, or unchanged. *)
Lemma shown_content_cases content limit :
  0 <= limit ->
  (limit < PyStr.len content ->
     McpServer.shown_content content limit
     = String.substring 0 (Z.to_nat limit) content +:+ "..."
     /\ PyStr.len (String.substring 0 (Z.to_nat limit) content) = limit)
  /\ (PyStr.len content <= limit -> McpServer.shown_content content limit = content).
Proof.
  intros Hlimit. unfold McpServer.shown_content. split; intros Hlen.
  - destruct (Z.gtb_spec (PyStr.len content) limit) as [_|?]; [|lia].
    rewrite slice_to_prefix by done. split; [done|].
    unfold PyStr.len in *. rewrite length_prefix by lia. lia.
  - by destruct (Z.gtb_spec (PyStr.len content) limit) as [?|_]; [lia|].
Qed.

Lemma format_result_section i (r : gmap string string) limit :
  McpServer.format_result i r limit
  = result_section i (default "No title" (r !! "title")) (default "No URL" (r !! "url"))
      (McpServer.shown_content (default "No content available" (r !! "content")) limit).
Proof. reflexivity. Qed.

(** C5 as stated fails for negative sizes.  With a max content size of -3
    the content ["abcdefgh"], longer than the limit, is shown as its first
    five characters and the marker, and ["abc"] as the marker alone: neither
    is cut to the limit.  With an effective max_results of -1 the first two
    of three results are in the output. *)
Lemma search_negative_sizes_cut_from_the_end :
  let server_clients := sample_server (-3) 10 in
  let config := McpServer.config server_clients in
  int_or (Some (-1)) (McpServer.max_results config) = -1 /\
  McpServer.max_content_size config < PyStr.len "abcdefgh" /\
  McpServer.max_content_size config < PyStr.len "abc" /\
  outcome_of (McpServer.search_documentation
                (searching (Ok {| results := Some three_hits |}))
                "query" ["docs.python.org"] (Some (-1)) None server_clients)
  = Ok (PyStr.join nl [ result_section 1 "T1" "http://a" "abcde...";
                        result_section 2 "T2" "http://b" "..." ]).
Proof. repeat split. Qed.

(** C5, amended.  For a non-negative content limit and a non-negative
    effective result cap, when the provider returns results: the text block
    is built from the first [cap] results only; each of them gets one
    section, in order, numbered from 1; and the content of a section is the
    first [limit] characters followed by ["..."] when the content is longer
    than the limit, the content itself otherwise.  The tool returns this
    block, or, when summarization is on and succeeds, the summary made from
    it. *)
Theorem search_results_truncated_and_capped env query sites max_results depth
    (server_clients : McpServer.ServerClients) client found :
  let config := McpServer.config server_clients in
  let limit := McpServer.max_content_size config in
  let cap := int_or max_results (McpServer.max_results config) in
  let kept := take (Z.to_nat cap) found in
  let sections := McpServer.format_search_results kept limit in
  let final_result := PyStr.join nl sections in
  let r := McpServer.search_documentation env query sites max_results depth server_clients in
  0 <= limit ->
  0 <= cap ->
  McpServer.tavily_client server_clients = Some client ->
  tavily_search env query cap (str_or depth (McpServer.search_depth config)) sites
  = Ok {| results := Some found |} ->
  found <> [] ->
  (outcome_of r = Ok final_result \/
   exists summarized,
     McpServer.enable_search_summarization config = true /\
     summarizer_invoke env (McpServer.create_summary_prompt final_result query)
     = Ok summarized /\
     outcome_of r = Ok summarized) /\
  length sections = Nat.min (Z.to_nat cap) (length found) /\
  forall (i : nat) (hit : gmap string string),
    found !! i = Some hit ->
    (i < Z.to_nat cap)%nat ->
    let content := default "No content available" (hit !! "content") in
    exists shown,
      sections !! i
      = Some (result_section (S i) (default "No title" (hit !! "title"))
                (default "No URL" (hit !! "url")) shown) /\
      (limit < PyStr.len content ->
         shown = String.substring 0 (Z.to_nat limit) content +:+ "..." /\
         PyStr.len (String.substring 0 (Z.to_nat limit) content) = limit) /\
      (PyStr.len content <= limit -> shown = content).
Proof.
  intros config limit cap kept sections final_result r Hlimit Hcap Hclient Hsearch Hfound.
  assert (Hkept : PyList.slice_to found cap = kept).
  { by apply list_slice_to_take. }
  split; [|split].
  - subst r. rewrite search_documentation_run. cbn zeta.
    fold config. fold cap. rewrite Hclient, Hsearch. cbn [results].
    destruct found as [|hit0 rest]; [done|].
    rewrite Hkept. fold limit. fold sections. fold final_result.
    destruct (McpServer.enable_search_summarization config) eqn:Hon; cbn [andb].
    2:{ by left. }
    destruct (bool_decide _); [|by left].
    destruct (summarizer_invoke env _) as [summarized|e] eqn:Hsum; [|by left].
    unfold outcome_of. cbn [fst snd].
    destruct (PyStr.len final_result =? 0); [by left|].
    right. by exists summarized.
  - subst sections kept. unfold McpServer.format_search_results.
    by rewrite format_from_length, length_take.
  - intros i hit Hi Hlt content.
    exists (McpServer.shown_content content limit).
    split; [|by apply shown_content_cases].
    subst sections kept. unfold McpServer.format_search_results.
    rewrite format_from_lookup, lookup_take_lt, Hi by done.
    cbn [fmap option_fmap option_map]. by rewrite format_result_section.
Qed.

Lemma search_results_truncated_and_capped_witness :
  outcome_of (McpServer.search_documentation
                (searching (Ok {| results := Some three_hits |}))
                "query" ["docs.python.org"] (Some 2) None (sample_server 5 10))
  = Ok (PyStr.join nl [ result_section 1 "T1" "http://a" "abcde...";
                        result_section 2 "T2" "http://b" "abc" ]).
Proof.
  destruct (search_results_truncated_and_capped
              (searching (Ok {| results := Some three_hits |}))
              "query" ["docs.python.org"] (Some 2) None (sample_server 5 10)
              {| McpServer.api_key := "tvly-key" |} three_hits)
    as [[Hout|(summarized & Hon & _)] _].
  - cbn. lia.
  - cbn. lia.
  - reflexivity.
  - reflexivity.
  - discriminate.
  - exact Hout.
  - discriminate Hon.
Defined.

(** C7.  When the provider answers with an empty result list, the tool
    returns the fixed no-results text. *)
Theorem search_empty_results_message env query sites max_results depth
    (server_clients : McpServer.ServerClients) client :
  McpServer.tavily_client server_clients = Some client ->
  tavily_search env query
    (int_or max_results (McpServer.max_results (McpServer.config server_clients)))
    (str_or depth (McpServer.search_depth (McpServer.config server_clients))) sites
  = Ok {| results := Some [] |} ->
  outcome_of (McpServer.search_documentation env query sites max_results depth server_clients)
  = Ok "No results found. Try a different search query or check if domains are accessible.".
Proof.
  intros Hclient Hsearch.
  rewrite search_documentation_run. cbn zeta. by rewrite Hclient, Hsearch.
Qed.

Lemma search_empty_results_message_witness :
  outcome_of (McpServer.search_documentation (searching (Ok {| results := Some [] |}))
                "query" ["docs.python.org"] None None (sample_server 5 10))
  = Ok "No results found. Try a different search query or check if domains are accessible.".
Proof.
  apply (search_empty_results_message (searching (Ok {| results := Some [] |}))
           "query" ["docs.python.org"] None None (sample_server 5 10)
           {| McpServer.api_key := "tvly-key" |}); reflexivity.
Defined.

(** A response without the [results] key gets the same text. *)
Lemma search_absent_results_message env query sites max_results depth
    (server_clients : McpServer.ServerClients) client :
  McpServer.tavily_client server_clients = Some client ->
  tavily_search env query
    (int_or max_results (McpServer.max_results (McpServer.config server_clients)))
    (str_or depth (McpServer.search_depth (McpServer.config server_clients))) sites
  = Ok {| results := None |} ->
  outcome_of (McpServer.search_documentation env query sites max_results depth server_clients)
  = Ok McpServer.no_results_message.
Proof.
  intros Hclient Hsearch.
  rewrite search_documentation_run. cbn zeta. by rewrite Hclient, Hsearch.
Qed.

(** C10.  A [max_results] of 0 is treated as an absent one, and an empty
    [depth] as an absent one: the provider is asked with the configured
    default cap and depth, and the results are cut at the configured default
    cap. *)
Theorem search_zero_cap_uses_default env query sites
    (server_clients : McpServer.ServerClients) client :
  McpServer.tavily_client server_clients = Some client ->
  let config := McpServer.config server_clients in
  let r := McpServer.search_documentation env query sites (Some 0) (Some EmptyString)
             server_clients in
  (forall depth,
     McpServer.search_documentation env query sites (Some 0) depth server_clients
     = McpServer.search_documentation env query sites None depth server_clients) /\
  (forall max_results,
     McpServer.search_documentation env query sites max_results (Some EmptyString)
       server_clients
     = McpServer.search_documentation env query sites max_results None server_clients) /\
  searches (trace_of r) = [(McpServer.max_results config, McpServer.search_depth config)] /\
  forall found,
    tavily_search env query (McpServer.max_results config) (McpServer.search_depth config)
      sites = Ok {| results := Some found |} ->
    found <> [] ->
    McpServer.enable_search_summarization config = false ->
    outcome_of r
    = Ok (PyStr.join nl
            (McpServer.format_search_results
               (PyList.slice_to found (McpServer.max_results config))
               (McpServer.max_content_size config))).
Proof.
  intros Hclient config r.
  split; [|split; [|split]].
  - intros depth. by rewrite !search_documentation_run.
  - intros max_results. by rewrite !search_documentation_run.
  - subst r. rewrite search_documentation_run. cbn zeta.
    change (int_or (Some 0) ?d) with d. change (str_or (Some EmptyString) ?d) with d.
    rewrite Hclient.
    destruct (tavily_search env query _ _ sites) as [[[[|hit0 rest]|]]|e]; try reflexivity.
    cbn [results].
    destruct (McpServer.enable_search_summarization _ && _); [|reflexivity].
    match goal with
    | |- context [summarizer_invoke env ?prompt] =>
        destruct (summarizer_invoke env prompt); reflexivity
    end.
  - intros found Hsearch Hfound Hoff. subst r.
    rewrite search_documentation_run. cbn zeta.
    change (int_or (Some 0) ?d) with d. change (str_or (Some EmptyString) ?d) with d.
    fold config. rewrite Hclient, Hsearch, Hoff. cbn [results andb].
    by destruct found.
Qed.

Lemma search_zero_cap_uses_default_witness :
  searches (trace_of (McpServer.search_documentation
                        (searching (Ok {| results := Some three_hits |}))
                        "query" ["docs.python.org"] (Some 0) (Some EmptyString)
                        (sample_server 5 2)))
  = [(2, "basic")] /\
  outcome_of (McpServer.search_documentation
                (searching (Ok {| results := Some three_hits |}))
                "query" ["docs.python.org"] (Some 0) (Some EmptyString) (sample_server 5 2))
  = Ok (PyStr.join nl [ result_section 1 "T1" "http://a" "abcde...";
                        result_section 2 "T2" "http://b" "abc" ]).
Proof.
  destruct (search_zero_cap_uses_default
              (searching (Ok {| results := Some three_hits |}))
              "query" ["docs.python.org"] (sample_server 5 2)
              {| McpServer.api_key := "tvly-key" |} eq_refl)
    as (_ & _ & Hasked & Hcut).
  split; [exact Hasked|].
  apply (Hcut three_hits); [reflexivity | discriminate | reflexivity].
Defined.

(** ** The scrape tool (C6) *)

(** What [scrape_website] does, step by step. *)
Lemma scrape_website_run env url tags_to_extract (server_clients : McpServer.ServerClients) :
  McpServer.scrape_website env url tags_to_extract server_clients =
  let tags := default McpServer.get_default_tags tags_to_extract in
  let loading := ChromiumLoad [url] in
  match chromium_load env [url] with
  | Raise e =>
      ([loading], Ok ("Web scraping error for " +:+ url +:+ ": " +:+ exn_str e), server_clients)
  | Ok [] => ([loading], Ok ("Failed to load content from " +:+ url), server_clients)
  | Ok html_docs =>
      let extracting := TransformDocuments html_docs tags in
      match transform_documents env html_docs tags with
      | Raise e =>
          ([loading; extracting],
           Ok ("Web scraping error for " +:+ url +:+ ": " +:+ exn_str e), server_clients)
      | Ok [] =>
          ([loading; extracting], Ok ("No content extracted from " +:+ url), server_clients)
      | Ok (doc :: _) =>
          ([loading; extracting],
           Ok (McpServer.scrape_template url
                 (McpServer.scraped_content (page_content doc)
                    (McpServer.max_scrape_length (McpServer.config server_clients)))),
           server_clients)
      end
  end.
Proof.
  unfold McpServer.scrape_website, McpServer.scrape_website_body.
  act_unfold. cbn beta iota zeta.
  destruct (chromium_load env [url]) as [[|page pages]|e]; try reflexivity.
  destruct (transform_documents env (page :: pages) _) as [[|doc docs]|e]; reflexivity.
Qed.

Lemma scraped_content_cases content limit :
  McpServer.scraped_content content limit = content \/
  McpServer.scraped_content content limit
  = PyStr.slice_to content limit +:+ nl +:+ nl +:+ "... (content truncated)".
Proof.
  unfold McpServer.scraped_content.
  destruct (PyStr.len content >? limit); [by right | by left].
Qed.

Lemma scrape_template_contains_url url content :
  PyStr.contains url (McpServer.scrape_template url content).
Proof.
  unfold McpServer.scrape_template.
  exists (nl +:+ "**Website Scraped:** "). eexists.
  by rewrite append_assoc.
Qed.

(** C6.  [scrape_website] always returns a text and leaves the server's
    state alone.  When loading raises, when no document is loaded, when
    extraction raises and when nothing is extracted, the text is a message
    naming the URL; otherwise it is the fixed template around the extracted
    content, whole or cut and marked.  In every case the URL occurs in the
    text. *)
Theorem scrape_website_always_text env url tags_to_extract
    (server_clients : McpServer.ServerClients) :
  let r := McpServer.scrape_website env url tags_to_extract server_clients in
  exists text,
    outcome_of r = Ok text /\
    state_of r = server_clients /\
    PyStr.contains url text /\
    match chromium_load env [url] with
    | Raise e => text = "Web scraping error for " +:+ url +:+ ": " +:+ exn_str e
    | Ok [] => text = "Failed to load content from " +:+ url
    | Ok html_docs =>
        match transform_documents env html_docs
                (default McpServer.get_default_tags tags_to_extract) with
        | Raise e => text = "Web scraping error for " +:+ url +:+ ": " +:+ exn_str e
        | Ok [] => text = "No content extracted from " +:+ url
        | Ok (doc :: _) =>
            exists content,
              text = nl +:+ "**Website Scraped:** " +:+ url +:+ nl +:+
                     "**Content Extracted:**" +:+ nl +:+ nl +:+
                     content +:+ nl +:+ nl +:+
                     "**Note:** Complete website content for comprehensive analysis." +:+ nl
              /\ (content = page_content doc \/
                  content
                  = PyStr.slice_to (page_content doc)
                      (McpServer.max_scrape_length (McpServer.config server_clients))
                    +:+ nl +:+ nl +:+ "... (content truncated)")
        end
    end.
Proof.
  intros r. subst r. rewrite scrape_website_run. cbn zeta.
  destruct (chromium_load env [url]) as [[|page pages]|e].
  - eexists. repeat split. apply contains_at_end.
  - destruct (transform_documents env (page :: pages) _) as [[|doc docs]|e].
    + eexists. repeat split. apply contains_at_end.
    + eexists. split; [reflexivity|]. split; [reflexivity|].
      split; [apply scrape_template_contains_url|].
      eexists. split; [reflexivity|]. apply scraped_content_cases.
    + eexists. repeat split. apply contains_here.
  - eexists. repeat split. apply contains_here.
Qed.

(** An unreachable URL: the browser raises, the tool answers with a text
    that names the URL. *)
Example scrape_unreachable_url :
  outcome_of (McpServer.scrape_website offline "https://nowhere.invalid/page" None
                (sample_server 5 10))
  = Ok "Web scraping error for https://nowhere.invalid/page: offline".
Proof. reflexivity. Qed.

(** ** The session registry (C9) *)

Lemma domain_qa_agent_init_run {S} env path config (s : S) :
  QaAgent.DomainQAAgent_init env path (Some config) s =
  match QaAgent.load_sites_data env path s with
  | (t, Ok sites_df, s1) =>
      (t,
       Ok {| QaAgent.config := config;
             QaAgent.mcp_server_url := Client.mcp_server_url config;
             QaAgent.sites_df := sites_df;
             QaAgent.llm := QaAgent.create_llm config;
             QaAgent.chat_history := [];
             QaAgent.mcp_client := None;
             QaAgent.tools := [];
             QaAgent.agent_executor := None |},
       s1)
  | (t, Raise e, s1) => (t, Raise e, s1)
  end.
Proof.
  unfold QaAgent.DomainQAAgent_init. act_unfold.
  destruct (QaAgent.load_sites_data env path s) as [[t [df|e]] s1]; [|reflexivity].
  by rewrite app_nil_r.
Qed.

(** Constructing an agent reads the catalog, once, keeps the caller's state
    and gives an agent with an empty history. *)
Lemma domain_qa_agent_init_facts {S} env path config (s : S) :
  let r := QaAgent.DomainQAAgent_init env path (Some config) s in
  trace_of r = [ReadCsv path] /\ state_of r = s /\
  forall agent, outcome_of r = Ok agent -> QaAgent.chat_history agent = [].
Proof.
  intros r. subst r. rewrite domain_qa_agent_init_run, load_sites_data_run.
  destruct (read_csv env path) as [df|e]; [|by repeat split].
  destruct (filter (fun col => col ∉ columns df) QaAgent.required_columns);
    projections; repeat split; try done.
  by intros agent [= <-].
Qed.

(** C9.  For a token that is in the registry, [get_or_create_agent] returns
    the agent registered under it, makes no outside call and leaves the
    registry and the agent objects as they were.  For a token that is not,
    it constructs an agent; when that succeeds the new object is added and
    registered under the token, and when it raises nothing is changed. *)
Theorem get_or_create_agent_registry env session_id (server : Main.Server)
    (state : Main.AppState) :
  Main.app_state server = Some state ->
  let r := Main.get_or_create_agent env session_id server in
  match Main.user_sessions state !! session_id with
  | Some agent => r = ([], Ok agent, server)
  | None =>
      trace_of r = [ReadCsv "sites_data.csv"] /\
      match outcome_of r with
      | Ok agent =>
          agent = length (Main.heap server) /\
          exists new_agent,
            Main.heap (state_of r) = Main.heap server ++ [new_agent] /\
            QaAgent.chat_history new_agent = [] /\
            Main.app_state (state_of r)
            = Some {| Main.user_sessions :=
                        <[session_id := agent]> (Main.user_sessions state);
                      Main.config := Main.config state |}
      | Raise _ => state_of r = server
      end
  end.
Proof.
  intros Hstate r. subst r.
  unfold Main.get_or_create_agent. act_unfold. cbn beta iota zeta.
  rewrite Hstate.
  destruct (Main.user_sessions state !! session_id) as [agent|]; [reflexivity|].
  destruct (domain_qa_agent_init_facts env QaAgent.default_csv_file_path
              (Main.config state) server) as (Ht & Hs & Hh).
  destruct (QaAgent.DomainQAAgent_init env QaAgent.default_csv_file_path
              (Some (Main.config state)) server) as [[t [new_agent|e]] s1];
    projections; subst t s1.
  - split; [reflexivity|]. split; [reflexivity|].
    exists new_agent. repeat split. by apply Hh.
  - by split.
Qed.

Lemma get_or_create_agent_registry_witness :
  Main.get_or_create_agent offline "abc" one_session = ([], Ok 0%nat, one_session).
Proof.
  exact (get_or_create_agent_registry offline "abc" one_session one_session_state eq_refl).
Defined.

(** A token that is not registered gets a new agent, placed after the
    existing ones. *)
Example get_or_create_agent_new_token :
  outcome_of (Main.get_or_create_agent (disk catalog_null_domain) "xyz" one_session)
  = Ok 1%nat.
Proof. reflexivity. Qed.

(** Before start-up there is no registry. *)
Example get_or_create_agent_before_startup :
  outcome_of (Main.get_or_create_agent offline "abc"
                {| Main.heap := []; Main.app_state := None |})
  = Raise (HTTPException 500 "Session store not initialized").
Proof. reflexivity. Qed.

(** * Further properties *)

(** ** Front-door configuration *)

Lemma get_env_with_fallback_int_value (environ : gmap string string) key fallback :
  Main.get_env_with_fallback environ key fallback PyInt.int
  = Ok (default fallback (environ !! key ≫= PyInt.parse)).
Proof.
  unfold Main.get_env_with_fallback.
  destruct (environ !! key) as [value|]; [|reflexivity]. cbn.
  destruct (PyInt.parse value) as [z|] eqn:Hp.
  - by rewrite (int_parse_some _ _ Hp).
  - by destruct (int_parse_none _ Hp) as [msg ->].
Qed.

Lemma get_env_with_fallback_float_value (environ : gmap string string) parse_float key
    fallback :
  Main.get_env_with_fallback environ key fallback (PyFloat.float parse_float)
  = Ok (default fallback (environ !! key ≫= parse_float)).
Proof.
  unfold Main.get_env_with_fallback, PyFloat.float.
  destruct (environ !! key) as [value|]; [|reflexivity]. cbn.
  by destruct (parse_float value).
Qed.

(** X1.  Once the credential is accepted the front-door configuration
    always loads, and each numeric entry is the value [int] (or [float])
    returns for its variable, or the default (0.1, 3000, 60, 30) when the
    variable is unset or the conversion raises: a text that is not a
    literal, or one of more than 4300 digits. *)
Theorem create_config_values (environ : gmap string string) parse_float key url :
  Main.validate_client_config environ = Ok (key, url) ->
  Main.create_config environ parse_float
  = Ok {| Client.google_api_key := key;
          Client.llm_temperature :=
            default float_0_1 (environ !! "LLM_TEMPERATURE" ≫= parse_float);
          Client.llm_max_tokens := default 3000 (environ !! "LLM_MAX_TOKENS" ≫= PyInt.parse);
          Client.llm_timeout := default 60 (environ !! "LLM_TIMEOUT" ≫= PyInt.parse);
          Client.request_timeout := default 30 (environ !! "REQUEST_TIMEOUT" ≫= PyInt.parse);
          Client.mcp_server_url := url |}.
Proof.
  intros Hv. unfold Main.create_config, Main.build_config.
  rewrite Hv, get_env_with_fallback_float_value, !get_env_with_fallback_int_value.
  reflexivity.
Qed.

Lemma create_config_values_witness :
  Main.create_config front_door_environ parse_half
  = Ok {| Client.google_api_key := "g-key";
          Client.llm_temperature := float_0_1;
          Client.llm_max_tokens := 3000;
          Client.llm_timeout := 90;
          Client.request_timeout := 30;
          Client.mcp_server_url := "http://127.0.0.1:8001/mcp" |}.
Proof.
  exact (create_config_values front_door_environ parse_half "g-key"
           "http://127.0.0.1:8001/mcp" eq_refl).
Defined.

(** X2.  The credential is accepted exactly when [GOOGLE_API_KEY] is set,
    not empty and not the placeholder; otherwise start-up raises
    [ValueError], whatever the other variables hold, and no session store
    comes to exist. *)
Theorem startup_requires_credential (environ : gmap string string) parse_float
    (server : Main.Server) :
  match environ !! "GOOGLE_API_KEY" with
  | Some k =>
      if bool_decide (k = EmptyString \/ k = "your_google_api_key_here")
      then Main.lifespan_startup environ parse_float server
           = Raise (ValueError "GOOGLE_API_KEY environment variable is required for the client LLM")
      else exists config,
          Main.lifespan_startup environ parse_float server
          = Ok {| Main.heap := Main.heap server;
                  Main.app_state :=
                    Some {| Main.user_sessions := ∅; Main.config := config |} |}
          /\ Client.google_api_key config = k
          /\ Client.mcp_server_url config
             = default "http://127.0.0.1:8001/mcp" (environ !! "MCP_SERVER_URL")
  | None =>
      Main.lifespan_startup environ parse_float server
      = Raise (ValueError "GOOGLE_API_KEY environment variable is required for the client LLM")
  end.
Proof.
  unfold Main.lifespan_startup.
  destruct (environ !! "GOOGLE_API_KEY") as [k|] eqn:Hk.
  - case_bool_decide as Hbad.
    + unfold Main.create_config, Main.build_config, Main.validate_client_config.
      rewrite Hk.
      destruct Hbad as [-> | ->]; reflexivity.
    + assert (Hv : Main.validate_client_config environ
                   = Ok (k, getenv_or environ "MCP_SERVER_URL" "http://127.0.0.1:8001/mcp")).
      { unfold Main.validate_client_config. rewrite Hk.
        destruct (String.eqb_spec k EmptyString) as [->|_]; [by destruct Hbad; left|].
        destruct (String.eqb_spec k "your_google_api_key_here") as [->|_];
          [by destruct Hbad; right|].
        reflexivity. }
      unfold Main.create_config, Main.build_config.
      rewrite Hv, get_env_with_fallback_float_value, !get_env_with_fallback_int_value.
      cbn. eexists. by repeat split.
  - unfold Main.create_config, Main.build_config, Main.validate_client_config.
    by rewrite Hk.
Qed.
(** ** Tool-server configuration *)

Lemma int_of_variable (environ : gmap string string) key fallback n :
  PyInt.parse fallback = Some n ->
  PyInt.int (getenv_or environ key fallback)
  = match environ !! key with
    | Some value => PyInt.int value
    | None => Ok n
    end.
Proof.
  intros Hn. unfold getenv_or. destruct (environ !! key); [reflexivity|].
  cbn. by apply int_parse_some.
Qed.

Lemma int_ok_value (s : string) (n : Z) :
  PyInt.int s = Ok n <-> PyInt.parse s = Some n.
Proof.
  unfold PyInt.parse. destruct (PyInt.int s); split; intros H; by simplify_eq.
Qed.

Lemma initialize_clients_ok (self self' : McpServer.ServerClients) :
  McpServer._initialize_clients self = Ok self' ->
  McpServer.config self' = McpServer.config self /\
  (exists k, McpServer.tavily_api_key (McpServer.config self) = Some k /\
             k <> EmptyString /\
             McpServer.tavily_client self' = Some {| McpServer.api_key := k |}) /\
  (McpServer.enable_search_summarization (McpServer.config self)
   && str_truthy (McpServer.google_api_key (McpServer.config self)) = true ->
   is_Some (McpServer.summarizer_llm self')) /\
  (McpServer.enable_search_summarization (McpServer.config self)
   && str_truthy (McpServer.google_api_key (McpServer.config self)) = false ->
   McpServer.summarizer_llm self' = McpServer.summarizer_llm self).
Proof.
  unfold McpServer._initialize_clients.
  destruct (McpServer.tavily_api_key (McpServer.config self)) as [k|]; [|done].
  destruct (String.eqb_spec k EmptyString) as [->|Hk]; [done|].
  cbn [McpServer.config McpServer.tavily_client McpServer.summarizer_llm].
  destruct (McpServer.enable_search_summarization _ && _); intros [= <-]; cbn;
    repeat split; eauto; done.
Qed.

Lemma initialize_clients_is_ok (self : McpServer.ServerClients) :
  str_truthy (McpServer.tavily_api_key (McpServer.config self)) = true ->
  is_ok (McpServer._initialize_clients self) = true.
Proof.
  unfold McpServer._initialize_clients, str_truthy.
  destruct (McpServer.tavily_api_key (McpServer.config self)) as [k|]; [|done].
  destruct (String.eqb k EmptyString); [done|]. intros _.
  by destruct (_ && _).
Qed.

Lemma int_variable_ok (environ : gmap string string) key fallback n value :
  PyInt.int (getenv_or environ key fallback) = Ok n ->
  environ !! key = Some value -> is_Some (PyInt.parse value).
Proof.
  unfold getenv_or. intros Hint Hset. rewrite Hset in Hint. cbn in Hint.
  apply int_ok_value in Hint. eauto.
Qed.

Lemma int_variable_total (environ : gmap string string) key fallback n :
  PyInt.parse fallback = Some n ->
  (forall value, environ !! key = Some value -> is_Some (PyInt.parse value)) ->
  exists m, PyInt.int (getenv_or environ key fallback) = Ok m.
Proof.
  intros Hn Hok. rewrite (int_of_variable _ _ _ _ Hn).
  destruct (environ !! key) as [value|]; [|eauto].
  destruct (Hok value eq_refl) as [m Hm]. exists m. by apply int_ok_value.
Qed.

Lemma initialize_clients_no_key (self : McpServer.ServerClients) :
  str_truthy (McpServer.tavily_api_key (McpServer.config self)) = false ->
  McpServer._initialize_clients self
  = Raise (ValueError "TAVILY_API_KEY environment variable is required").
Proof.
  unfold McpServer._initialize_clients, str_truthy.
  destruct (McpServer.tavily_api_key (McpServer.config self)) as [k|]; [|done].
  by destruct (String.eqb k EmptyString).
Qed.

Lemma server_clients_no_key (environ : gmap string string) :
  str_truthy (environ !! "TAVILY_API_KEY") = false ->
  exists msg, McpServer.load_server_clients environ = Raise (ValueError msg).
Proof.
  intros Hkey.
  assert (Hinit : exists msg, McpServer.ServerClients_init environ = Raise (ValueError msg)).
  { unfold McpServer.ServerClients_init.
    apply int_then_value_error. intros n1 _.
    apply int_then_value_error. intros n2 _.
    apply int_then_value_error. intros n3 _.
    rewrite initialize_clients_no_key by exact Hkey. eauto. }
  destruct Hinit as [msg Hinit].
  unfold McpServer.load_server_clients. rewrite Hinit. eauto.
Qed.

Lemma server_clients_started (environ : gmap string string) :
  is_ok (McpServer.load_server_clients environ) = true ->
  str_truthy (environ !! "TAVILY_API_KEY") = true /\
  Forall (fun key => forall value, environ !! key = Some value -> is_Some (PyInt.parse value))
         ["MAX_RESULTS"; "MAX_CONTENT_SIZE"; "MAX_SCRAPE_LENGTH"].
Proof.
  rewrite !Forall_cons, Forall_nil.
  unfold McpServer.load_server_clients, McpServer.ServerClients_init.
  intros Hok.
  destruct (PyInt.int (getenv_or environ "MAX_RESULTS" "10")) as [n1|] eqn:E1;
    [|done].
  destruct (PyInt.int (getenv_or environ "MAX_CONTENT_SIZE" "10000")) as [n2|] eqn:E2;
    [|done].
  destruct (PyInt.int (getenv_or environ "MAX_SCRAPE_LENGTH" "20000")) as [n3|] eqn:E3;
    [|done].
  cbn [mbind result_mbind result_bind] in Hok.
  match type of Hok with
  | context [McpServer._initialize_clients ?self] =>
      destruct (McpServer._initialize_clients self) as [self'|] eqn:Hinit; [|done];
      apply initialize_clients_ok in Hinit as (_ & (k & Hk & Hne & _) & _)
  end.
  cbn in Hk. split.
  - rewrite Hk. cbn. by destruct (String.eqb_spec k EmptyString).
  - repeat split; intros value; by eapply int_variable_ok.
Qed.

(** X3.  [ServerClients()] can succeed only when [TAVILY_API_KEY] is set
    and not empty and each of [MAX_RESULTS], [MAX_CONTENT_SIZE],
    [MAX_SCRAPE_LENGTH] is either unset or a text [int] accepts.  When the
    key is unset or empty, or one of the three is set to a text [int]
    rejects, it raises [ValueError]. *)
Theorem server_clients_start_conditions (environ : gmap string string) :
  (is_ok (McpServer.load_server_clients environ) = true ->
   str_truthy (environ !! "TAVILY_API_KEY") = true /\
   Forall (fun key => forall value, environ !! key = Some value -> is_Some (PyInt.parse value))
          ["MAX_RESULTS"; "MAX_CONTENT_SIZE"; "MAX_SCRAPE_LENGTH"]) /\
  (str_truthy (environ !! "TAVILY_API_KEY") = false \/
   Exists (fun key => exists value, environ !! key = Some value /\ PyInt.parse value = None)
          ["MAX_RESULTS"; "MAX_CONTENT_SIZE"; "MAX_SCRAPE_LENGTH"] ->
   exists msg, McpServer.load_server_clients environ = Raise (ValueError msg)).
Proof.
  split; [apply server_clients_started|].
  intros [Hkey|Hbad]; [by apply server_clients_no_key|].
  apply Exists_exists in Hbad as (key & Hkey & value & Hset & Hvalue).
  by eapply server_clients_invalid_number.
Qed.

Lemma server_clients_start_conditions_witness :
  exists msg,
    McpServer.load_server_clients (<["MAX_SCRAPE_LENGTH" := nines 4301]> tool_server_environ)
    = Raise (ValueError msg).
Proof.
  apply (proj2 (server_clients_start_conditions _)).
  right. do 2 apply Exists_cons_tl. apply Exists_cons_hd.
  exists (nines 4301). split; [apply lookup_insert_eq | by vm_compute].
Defined.

(** X4.  What a started tool server holds: each numeric entry is the value
    [int] returns for its variable, or 10, 10000, 20000 when unset; the depth is the
    variable or ["basic"]; summarization is requested when the variable,
    lower-cased, is ["true"]; the search client carries the key; and a
    summarizer exists exactly when summarization is requested and
    [GOOGLE_API_KEY] is set and not empty. *)
Theorem server_clients_values (environ : gmap string string)
    (server_clients : McpServer.ServerClients) :
  McpServer.load_server_clients environ = Ok server_clients ->
  let config := McpServer.config server_clients in
  McpServer.max_results config = default 10 (environ !! "MAX_RESULTS" ≫= PyInt.parse) /\
  McpServer.max_content_size config
  = default 10000 (environ !! "MAX_CONTENT_SIZE" ≫= PyInt.parse) /\
  McpServer.max_scrape_length config
  = default 20000 (environ !! "MAX_SCRAPE_LENGTH" ≫= PyInt.parse) /\
  McpServer.search_depth config = default "basic" (environ !! "SEARCH_DEPTH") /\
  McpServer.enable_search_summarization config
  = String.eqb (PyStr.lower (default "false" (environ !! "ENABLE_SEARCH_SUMMARIZATION")))
      "true" /\
  (exists k, environ !! "TAVILY_API_KEY" = Some k /\ k <> EmptyString /\
             McpServer.tavily_client server_clients = Some {| McpServer.api_key := k |}) /\
  (is_Some (McpServer.summarizer_llm server_clients) <->
   McpServer.enable_search_summarization config = true /\
   str_truthy (environ !! "GOOGLE_API_KEY") = true).
Proof.
  cbv zeta.
  unfold McpServer.load_server_clients, McpServer.ServerClients_init.
  rewrite (int_of_variable environ "MAX_RESULTS" "10" 10 eq_refl).
  rewrite (int_of_variable environ "MAX_CONTENT_SIZE" "10000" 10000 eq_refl).
  rewrite (int_of_variable environ "MAX_SCRAPE_LENGTH" "20000" 20000 eq_refl).
  intros Hload.
  assert (Hnum : forall key fallback n,
             match environ !! key with
             | Some value => PyInt.int value
             | None => Ok fallback
             end = Ok n ->
             n = default fallback (environ !! key ≫= PyInt.parse)).
  { intros key fallback n. destruct (environ !! key) as [value|]; cbn.
    - intros H%int_ok_value. by rewrite H.
    - by intros [= <-]. }
  destruct (match environ !! "MAX_RESULTS" with
            | Some value => PyInt.int value | None => Ok 10 end) as [n1|] eqn:E1; [|done].
  destruct (match environ !! "MAX_CONTENT_SIZE" with
            | Some value => PyInt.int value | None => Ok 10000 end) as [n2|] eqn:E2; [|done].
  destruct (match environ !! "MAX_SCRAPE_LENGTH" with
            | Some value => PyInt.int value | None => Ok 20000 end) as [n3|] eqn:E3; [|done].
  apply Hnum in E1, E2, E3.
  cbn [mbind result_mbind result_bind] in Hload.
  match type of Hload with
  | context [McpServer._initialize_clients ?self] =>
      destruct (McpServer._initialize_clients self) as [self'|] eqn:Hinit; [|done];
      apply initialize_clients_ok in Hinit as (Hcfg & (k & Hk & Hne & Hclient) & Hyes & Hno)
  end.
  injection Hload as <-. rewrite Hcfg. cbn in *.
  do 5 (split; [done|]).
  split; [by exists k|].
  split.
  - intros Hsome.
    destruct (String.eqb _ "true" && str_truthy (environ !! "GOOGLE_API_KEY")) eqn:Hboth.
    + by apply andb_true_iff in Hboth.
    + rewrite (Hno eq_refl) in Hsome. by destruct Hsome.
  - intros [Hon Hkey]. apply Hyes. by rewrite Hon, Hkey.
Qed.

Lemma server_clients_values_witness :
  exists server_clients,
    McpServer.load_server_clients tool_server_environ = Ok server_clients /\
    McpServer.max_results (McpServer.config server_clients) = 3 /\
    McpServer.max_content_size (McpServer.config server_clients) = 10000 /\
    McpServer.enable_search_summarization (McpServer.config server_clients) = true /\
    is_Some (McpServer.summarizer_llm server_clients).
Proof.
  destruct (McpServer.load_server_clients tool_server_environ) as [server_clients|e] eqn:E;
    [|by vm_compute in E].
  exists server_clients.
  destruct (server_clients_values tool_server_environ server_clients E)
    as (H1 & H2 & _ & _ & H5 & _ & H7).
  split; [reflexivity|].
  split; [exact H1|]. split; [exact H2|]. split; [exact H5|].
  apply H7. split; [by rewrite H5 | reflexivity].
Defined.

(** ** The search tool, further *)

(** The text block of a list of results that is not empty starts with the
    line break of its first section. *)
Lemma search_block_not_empty (kept : list SearchResult) (limit : Z) :
  kept <> [] ->
  PyStr.len (PyStr.join nl (McpServer.format_search_results kept limit)) <> 0.
Proof.
  destruct kept as [|first rest]; [done|]. intros _.
  unfold McpServer.format_search_results. cbn [McpServer.format_from].
  assert (Hfirst : exists text,
             McpServer.format_result 1 first limit = String (ascii_of_nat 10) text)
    by (eexists; reflexivity).
  destruct Hfirst as [text ->].
  destruct (McpServer.format_from 2 rest limit); cbn [PyStr.join];
    rewrite ?append_cons; unfold PyStr.len; cbn [String.length]; lia.
Qed.

Lemma list_slice_to_negative {A} (l : list A) (stop : Z) :
  stop < 0 -> PyList.slice_to l stop = take (length l - Z.to_nat (- stop)) l.
Proof.
  intros Hneg. unfold PyList.slice_to, PyList.len.
  destruct (Z.ltb_spec stop 0) as [_|?]; [|lia].
  f_equal. lia.
Qed.

Lemma str_slice_to_negative (s : string) (stop : Z) :
  stop < 0 ->
  PyStr.slice_to s stop = String.substring 0 (String.length s - Z.to_nat (- stop)) s.
Proof.
  intros Hneg. unfold PyStr.slice_to, PyStr.len.
  destruct (Z.ltb_spec stop 0) as [_|?]; [|lia].
  f_equal. lia.
Qed.

(** X5.  [search_documentation] always returns a text, leaves the server's
    clients and configuration as they were and asks the provider at most
    once.  Without a search client no call is made; when the provider
    raises, the text is the error marker followed by the exception's
    message. *)
Theorem search_documentation_always_text env query sites max_results depth
    (server_clients : McpServer.ServerClients) :
  let r := McpServer.search_documentation env query sites max_results depth server_clients in
  exists text,
    outcome_of r = Ok text /\
    state_of r = server_clients /\
    (length (searches (trace_of r)) <= 1)%nat /\
    match McpServer.tavily_client server_clients with
    | None =>
        trace_of r = [] /\
        text = "❌ Search error: 'NoneType' object has no attribute 'search'"
    | Some _ =>
        match tavily_search env query
                (int_or max_results (McpServer.max_results (McpServer.config server_clients)))
                (str_or depth (McpServer.search_depth (McpServer.config server_clients)))
                sites with
        | Raise e => text = "❌ Search error: " +:+ exn_str e
        | Ok _ => True
        end
    end.
Proof.
  intros r. subst r. rewrite search_documentation_run. cbn zeta.
  destruct (McpServer.tavily_client server_clients).
  2:{ eexists. split; [reflexivity|]. split; [reflexivity|]. split; [cbn; lia|]. done. }
  destruct (tavily_search env query _ _ sites) as [[[[|hit0 rest]|]]|e]; cbn [results].
  - eexists. split; [reflexivity|]. split; [reflexivity|]. split; [cbn; lia|]. done.
  - destruct (McpServer.enable_search_summarization _ && _).
    + match goal with
      | |- context [summarizer_invoke env ?prompt] =>
          destruct (summarizer_invoke env prompt)
      end;
      (eexists; split; [reflexivity|]; split; [reflexivity|]; split; [cbn; lia|]; done).
    + eexists. split; [reflexivity|]. split; [reflexivity|]. split; [cbn; lia|]. done.
  - eexists. split; [reflexivity|]. split; [reflexivity|]. split; [cbn; lia|]. done.
  - eexists. split; [reflexivity|]. split; [reflexivity|]. split; [cbn; lia|]. done.
Qed.

(** X6.  Summarization is best effort.  With summarization on and results
    at hand, the summarizer is asked once, with the prompt made from the
    text block and the query.  Its answer is returned when the text block is
    not empty, which it is as soon as one result is kept; when the block is
    empty (no result kept) the reduction ratio divides by zero and the
    empty block is returned; and when the summarizer raises, the text block
    is returned. *)
Theorem search_summarization_best_effort env query sites max_results depth
    (server_clients : McpServer.ServerClients) client llm found :
  let config := McpServer.config server_clients in
  let cap := int_or max_results (McpServer.max_results config) in
  let final_depth := str_or depth (McpServer.search_depth config) in
  let final_result :=
    PyStr.join nl (McpServer.format_search_results (PyList.slice_to found cap)
                     (McpServer.max_content_size config)) in
  let prompt := McpServer.create_summary_prompt final_result query in
  let r := McpServer.search_documentation env query sites max_results depth server_clients in
  McpServer.tavily_client server_clients = Some client ->
  McpServer.summarizer_llm server_clients = Some llm ->
  McpServer.enable_search_summarization config = true ->
  tavily_search env query cap final_depth sites = Ok {| results := Some found |} ->
  found <> [] ->
  trace_of r = [TavilySearch query cap final_depth sites; SummarizerInvoke prompt] /\
  match summarizer_invoke env prompt with
  | Ok summarized =>
      outcome_of r = Ok (if PyStr.len final_result =? 0 then final_result else summarized)
  | Raise _ => outcome_of r = Ok final_result
  end /\
  (PyList.slice_to found cap <> [] -> (PyStr.len final_result =? 0) = false) /\
  (PyList.slice_to found cap = [] -> final_result = EmptyString).
Proof.
  intros config cap final_depth final_result prompt r Hclient Hllm Hon Hsearch Hfound.
  enough (Hrun : trace_of r
                 = [TavilySearch query cap final_depth sites; SummarizerInvoke prompt] /\
                 match summarizer_invoke env prompt with
                 | Ok summarized =>
                     outcome_of r
                     = Ok (if PyStr.len final_result =? 0 then final_result else summarized)
                 | Raise _ => outcome_of r = Ok final_result
                 end).
  { destruct Hrun as [Htrace Hout].
    split; [exact Htrace|]. split; [exact Hout|]. split.
    - intros Hkept. apply Z.eqb_neq. by apply search_block_not_empty.
    - intros Hkept. subst final_result. by rewrite Hkept. }
  subst r. rewrite search_documentation_run. cbn zeta.
  fold config. fold cap. fold final_depth.
  rewrite Hclient, Hsearch, Hon, Hllm. cbn [results].
  destruct found as [|hit0 rest]; [done|].
  fold final_result. fold prompt. cbn [andb].
  rewrite bool_decide_true by eauto.
  by destruct (summarizer_invoke env prompt).
Qed.

Lemma search_summarization_best_effort_witness :
  outcome_of (McpServer.search_documentation
                (summarizing (Ok {| results := Some three_hits |}) "T1 and T2 in short")
                "query" ["docs.python.org"] (Some 2) None summarizing_server)
  = Ok "T1 and T2 in short".
Proof.
  destruct (search_summarization_best_effort
              (summarizing (Ok {| results := Some three_hits |}) "T1 and T2 in short")
              "query" ["docs.python.org"] (Some 2) None summarizing_server
              {| McpServer.api_key := "tvly-key" |} sample_summarizer three_hits
              eq_refl eq_refl eq_refl eq_refl) as (_ & Hout & Hkept & _).
  - discriminate.
  - cbn [summarizing summarizer_invoke] in Hout.
    rewrite Hkept in Hout by discriminate. exact Hout.
Defined.

(** X7.  A configured default cap of 0 is not replaced by anything: when
    the caller gives no cap, or 0, and the provider returns results, every
    result is cut away and the tool returns the empty text, with
    summarization on or off. *)
Theorem search_default_cap_zero env query sites max_results depth
    (server_clients : McpServer.ServerClients) client found :
  McpServer.tavily_client server_clients = Some client ->
  McpServer.max_results (McpServer.config server_clients) = 0 ->
  max_results = None \/ max_results = Some 0 ->
  tavily_search env query 0
    (str_or depth (McpServer.search_depth (McpServer.config server_clients))) sites
  = Ok {| results := Some found |} ->
  found <> [] ->
  outcome_of (McpServer.search_documentation env query sites max_results depth server_clients)
  = Ok EmptyString.
Proof.
  intros Hclient Hzero Hmr Hsearch Hfound.
  assert (Hcap : int_or max_results
                   (McpServer.max_results (McpServer.config server_clients)) = 0).
  { rewrite Hzero. by destruct Hmr as [-> | ->]. }
  rewrite search_documentation_run. cbn zeta.
  rewrite Hcap, Hclient, Hsearch. cbn [results].
  destruct found as [|hit0 rest]; [done|].
  destruct (McpServer.enable_search_summarization _ && _); [|reflexivity].
  match goal with
  | |- context [summarizer_invoke env ?prompt] =>
      destruct (summarizer_invoke env prompt); reflexivity
  end.
Qed.

Lemma search_default_cap_zero_witness :
  outcome_of (McpServer.search_documentation
                (searching (Ok {| results := Some three_hits |}))
                "query" ["docs.python.org"] None None (sample_server 5 0))
  = Ok EmptyString.
Proof.
  apply (search_default_cap_zero (searching (Ok {| results := Some three_hits |}))
           "query" ["docs.python.org"] None None (sample_server 5 0)
           {| McpServer.api_key := "tvly-key" |} three_hits);
    [reflexivity | reflexivity | by left | reflexivity | discriminate].
Defined.

(** X8.  A negative cap counts from the end: with an effective cap
    [cap < 0] the text block is built from all results but the last [-cap]
    (from none when there are not more than that). *)
Theorem search_negative_cap_drops_last env query sites max_results depth
    (server_clients : McpServer.ServerClients) client found :
  let config := McpServer.config server_clients in
  let cap := int_or max_results (McpServer.max_results config) in
  McpServer.tavily_client server_clients = Some client ->
  McpServer.enable_search_summarization config = false ->
  cap < 0 ->
  tavily_search env query cap (str_or depth (McpServer.search_depth config)) sites
  = Ok {| results := Some found |} ->
  found <> [] ->
  outcome_of (McpServer.search_documentation env query sites max_results depth server_clients)
  = Ok (PyStr.join nl
          (McpServer.format_search_results
             (take (length found - Z.to_nat (- cap)) found)
             (McpServer.max_content_size config))).
Proof.
  intros config cap Hclient Hoff Hneg Hsearch Hfound.
  rewrite search_documentation_run. cbn zeta.
  fold config. fold cap. rewrite Hclient, Hsearch, Hoff. cbn [results andb].
  destruct found as [|hit0 rest]; [done|].
  by rewrite list_slice_to_negative.
Qed.

Lemma search_negative_cap_drops_last_witness :
  outcome_of (McpServer.search_documentation
                (searching (Ok {| results := Some three_hits |}))
                "query" ["docs.python.org"] (Some (-1)) None (sample_server 5 10))
  = Ok (PyStr.join nl [ result_section 1 "T1" "http://a" "abcde...";
                        result_section 2 "T2" "http://b" "abc" ]).
Proof.
  exact (search_negative_cap_drops_last
           (searching (Ok {| results := Some three_hits |}))
           "query" ["docs.python.org"] (Some (-1)) None (sample_server 5 10)
           {| McpServer.api_key := "tvly-key" |} three_hits
           eq_refl eq_refl eq_refl eq_refl ltac:(discriminate)).
Defined.

(** X9.  A negative content limit marks every result as cut: the content
    shown is the content without its last [-limit] characters, followed by
    ["..."], however short the content is. *)
Theorem format_result_negative_limit (i : nat) (hit : gmap string string) (limit : Z) :
  limit < 0 ->
  let content := default "No content available" (hit !! "content") in
  McpServer.format_result i hit limit
  = result_section i (default "No title" (hit !! "title")) (default "No URL" (hit !! "url"))
      (String.substring 0 (String.length content - Z.to_nat (- limit)) content +:+ "...").
Proof.
  intros Hneg content. rewrite format_result_section. fold content.
  unfold McpServer.shown_content.
  destruct (Z.gtb_spec (PyStr.len content) limit) as [_|Hle].
  - by rewrite str_slice_to_negative.
  - unfold PyStr.len in Hle. lia.
Qed.

Lemma format_result_negative_limit_witness :
  McpServer.format_result 1 (hit "T1" "http://a" "abcdefgh") (-3)
  = result_section 1 "T1" "http://a" "abcde...".
Proof.
  exact (format_result_negative_limit 1 (hit "T1" "http://a" "abcdefgh") (-3) eq_refl).
Defined.

(** ** The scrape tool, further *)

(** X10.  With a non-negative scrape limit, the page text kept is the first
    [limit] characters followed by a blank line and the truncation note
    when the text is longer than the limit, and the text itself otherwise;
    only the first extracted document is used. *)
Theorem scrape_content_truncated env url tags_to_extract
    (server_clients : McpServer.ServerClients) page pages doc docs :
  let limit := McpServer.max_scrape_length (McpServer.config server_clients) in
  let content := page_content doc in
  0 <= limit ->
  chromium_load env [url] = Ok (page :: pages) ->
  transform_documents env (page :: pages)
    (default McpServer.get_default_tags tags_to_extract) = Ok (doc :: docs) ->
  exists kept,
    outcome_of (McpServer.scrape_website env url tags_to_extract server_clients)
    = Ok (McpServer.scrape_template url kept) /\
    (limit < PyStr.len content ->
       kept = String.substring 0 (Z.to_nat limit) content
              +:+ nl +:+ nl +:+ "... (content truncated)" /\
       PyStr.len (String.substring 0 (Z.to_nat limit) content) = limit) /\
    (PyStr.len content <= limit -> kept = content).
Proof.
  intros limit content Hlimit Hload Hextract.
  rewrite scrape_website_run. cbn zeta. rewrite Hload, Hextract.
  fold limit. fold content.
  exists (McpServer.scraped_content content limit).
  split; [reflexivity|].
  unfold McpServer.scraped_content. split; intros Hlen.
  - destruct (Z.gtb_spec (PyStr.len content) limit) as [_|?]; [|lia].
    rewrite slice_to_prefix by done. split; [done|].
    unfold PyStr.len in *. rewrite length_prefix by lia. lia.
  - by destruct (Z.gtb_spec (PyStr.len content) limit) as [?|_]; [lia|].
Qed.

Lemma scrape_content_truncated_witness :
  outcome_of (McpServer.scrape_website
                (browsing (Ok [ {| page_content := "<html>" |} ])
                          (Ok [ {| page_content := "abcdefghijklmnop" |};
                                {| page_content := "ignored" |} ]))
                "https://example.org/page" None (sample_server 5 10))
  = Ok (McpServer.scrape_template "https://example.org/page"
          ("abcdefghij" +:+ nl +:+ nl +:+ "... (content truncated)")).
Proof.
  destruct (scrape_content_truncated
              (browsing (Ok [ {| page_content := "<html>" |} ])
                        (Ok [ {| page_content := "abcdefghijklmnop" |};
                              {| page_content := "ignored" |} ]))
              "https://example.org/page" None (sample_server 5 10)
              {| page_content := "<html>" |} [] {| page_content := "abcdefghijklmnop" |}
              [ {| page_content := "ignored" |} ])
    as (kept & Hout & Hlong & _); [by vm_compute | reflexivity | reflexivity |].
  destruct Hlong as [-> _]; [by vm_compute|]. exact Hout.
Defined.

(** X11.  [scrape_website] asks the browser once, for exactly the requested
    URL, and calls the extractor only when at least one document was loaded;
    the extractor gets the caller's tag list as it is, even an empty one,
    and the eleven default tags only when no list was given. *)
Theorem scrape_website_calls env url tags_to_extract
    (server_clients : McpServer.ServerClients) :
  trace_of (McpServer.scrape_website env url tags_to_extract server_clients)
  = match chromium_load env [url] with
    | Ok (page :: pages) =>
        [ ChromiumLoad [url];
          TransformDocuments (page :: pages)
            (match tags_to_extract with
             | Some tags => tags
             | None => ["p"; "li"; "div"; "a"; "span"; "h1"; "h2"; "h3"; "h4"; "h5"; "h6"]
             end) ]
    | _ => [ChromiumLoad [url]]
    end.
Proof.
  rewrite scrape_website_run. cbn zeta.
  destruct (chromium_load env [url]) as [[|page pages]|e]; try reflexivity.
  destruct tags_to_extract as [tags|]; cbn [from_option id];
    match goal with
    | |- context [transform_documents env ?d ?t] =>
        destruct (transform_documents env d t) as [[|doc docs]|e]
    end; reflexivity.
Qed.

(** ** The agent, further *)

(** A chat call on an agent that holds a client and an executor goes
    straight to the reasoning loop. *)
Lemma achat_initialized_trace env (self : QaAgent.Agent) (u : string) client executor :
  QaAgent.mcp_client self = Some client ->
  QaAgent.agent_executor self = Some executor ->
  trace_of (QaAgent.achat env u self)
  = [ExecutorInvoke executor
       {| input := u;
          chat_history_in := QaAgent.context_turns (QaAgent.chat_history self) |}].
Proof.
  intros Hclient Hexecutor.
  rewrite achat_run, achat_body_run, initialize_mcp_client_run, Hclient, Hexecutor.
  cbn zeta.
  by destruct (executor_ainvoke env executor _).
Qed.

(** A chat call that reached the reasoning loop leaves the agent with a
    client and with the executor it used. *)
Lemma achat_reached_state env (self : QaAgent.Agent) (u : string) executor agent_input :
  (executor, agent_input) ∈ invocations (trace_of (QaAgent.achat env u self)) ->
  is_Some (QaAgent.mcp_client (state_of (QaAgent.achat env u self))) /\
  QaAgent.agent_executor (state_of (QaAgent.achat env u self)) = Some executor.
Proof.
  rewrite achat_run, achat_body_run, initialize_mcp_client_run.
  destruct (QaAgent.mcp_client self) as [client|] eqn:Hclient.
  - destruct (QaAgent.agent_executor self) as [ex|] eqn:Hex; cbn zeta.
    + destruct (executor_ainvoke env ex _); projections; cbn;
        intros Hin; apply list_elem_of_singleton in Hin; injection Hin as -> ->;
        by rewrite ?Hclient, ?Hex.
    + projections. cbn. intros Hin. by apply elem_of_nil in Hin.
  - cbn zeta.
    destruct (mcp_get_tools env _) as [tools|e].
    2:{ projections. cbn. intros Hin. by apply elem_of_nil in Hin. }
    destruct (create_agent_executor env _ _ tools) as [ex|e].
    2:{ projections. cbn. intros Hin. by apply elem_of_nil in Hin. }
    cbn [QaAgent.agent_executor QaAgent.set_agent_executor].
    destruct (executor_ainvoke env ex _); projections; cbn;
      intros Hin; apply list_elem_of_singleton in Hin; injection Hin as -> ->; eauto.
Qed.

(** X12.  The tool-server connection and the executor are made once.  After
    a chat call that reached the reasoning loop, every later call on the
    agent makes exactly one outside call, to the same executor, and none to
    the tool server. *)
Theorem achat_reuses_executor env (self : QaAgent.Agent) (u : string)
    executor agent_input env' (u' : string) :
  (executor, agent_input) ∈ invocations (trace_of (QaAgent.achat env u self)) ->
  let self' := state_of (QaAgent.achat env u self) in
  trace_of (QaAgent.achat env' u' self')
  = [ExecutorInvoke executor
       {| input := u';
          chat_history_in := QaAgent.context_turns (QaAgent.chat_history self') |}].
Proof.
  intros Hin self'.
  destruct (achat_reached_state env self u executor agent_input Hin) as [[client Hc] He].
  by apply (achat_initialized_trace env' self' u' client executor).
Qed.

Lemma achat_reuses_executor_witness :
  trace_of (QaAgent.achat offline "again"
              (state_of (QaAgent.achat (answering (Ok {| output := Some "hi" |})) "hello"
                           (agent_with_history []))))
  = [ExecutorInvoke {| executor_id := 1 |}
       {| input := "again";
          chat_history_in := [HumanMessage "hello"; AIMessage "hi"] |}].
Proof.
  refine (achat_reuses_executor (answering (Ok {| output := Some "hi" |}))
            (agent_with_history []) "hello" {| executor_id := 1 |}
            {| input := "hello"; chat_history_in := [] |} offline "again" _).
  vm_compute. left.
Defined.

(** X13.  A failed initialization is never retried.  When a fresh agent
    cannot fetch its tools or build its executor, the call answers with the
    error text, and every later call, whatever the outside world then
    answers, makes no outside call and returns the text of the attribute
    error on the missing executor, leaving the agent as it is. *)
Theorem achat_after_failed_initialization env (self : QaAgent.Agent) (u : string) e
    env' (u' : string) :
  QaAgent.mcp_client self = None ->
  QaAgent.agent_executor self = None ->
  outcome_of (QaAgent._initialize_mcp_client env self) = Raise e ->
  let self' := state_of (QaAgent.achat env u self) in
  outcome_of (QaAgent.achat env u self) = Ok ("Error: " +:+ exn_str e) /\
  QaAgent.achat env' u' self'
  = ([], Ok "Error: 'NoneType' object has no attribute 'ainvoke'", self').
Proof.
  intros Hclient Hexecutor Hfail self'. subst self'.
  rewrite !achat_run, !achat_body_run.
  revert Hfail. rewrite !initialize_mcp_client_run, Hclient. cbn zeta.
  destruct (mcp_get_tools env _) as [tools|e1]; projections.
  - destruct (create_agent_executor env _ _ tools) as [ex|e2]; projections; [done|].
    intros [= ->]. cbn. by rewrite Hexecutor.
  - intros [= ->]. cbn. by rewrite Hexecutor.
Qed.

Lemma achat_after_failed_initialization_witness :
  outcome_of (QaAgent.achat offline "hello" (agent_with_history [])) = Ok "Error: offline" /\
  QaAgent.achat (answering (Ok {| output := Some "hi" |})) "again"
    (state_of (QaAgent.achat offline "hello" (agent_with_history [])))
  = ([], Ok "Error: 'NoneType' object has no attribute 'ainvoke'",
     state_of (QaAgent.achat offline "hello" (agent_with_history []))).
Proof.
  exact (achat_after_failed_initialization offline (agent_with_history []) "hello"
           (OtherException "offline") (answering (Ok {| output := Some "hi" |})) "again"
           eq_refl eq_refl eq_refl).
Defined.

(** X14.  Two calls in a row.  After a call whose loop returned, the next
    call hands the loop the three turns that preceded the exchange (fewer
    when there were fewer), then the exchange itself. *)
Theorem achat_next_context env (self : QaAgent.Agent) (u : string)
    executor agent_input response env' (u' : string) :
  (executor, agent_input) ∈ invocations (trace_of (QaAgent.achat env u self)) ->
  executor_ainvoke env executor agent_input = Ok response ->
  let h := QaAgent.chat_history self in
  let answer := default QaAgent.fallback_answer (output response) in
  invocations (trace_of (QaAgent.achat env' u' (state_of (QaAgent.achat env u self))))
  = [(executor,
      {| input := u';
         chat_history_in := drop (length h - 3) h ++ [HumanMessage u; AIMessage answer] |})].
Proof.
  intros Hin Hloop h answer.
  destruct (achat_reached_state env self u executor agent_input Hin) as [[client Hc] He].
  rewrite (achat_initialized_trace env' _ u' client executor Hc He).
  destruct (achat_cases env self u) as [Hnone|(ex & Hone & Hcase)].
  { rewrite Hnone in Hin. by apply elem_of_nil in Hin. }
  rewrite Hone in Hin. apply list_elem_of_singleton in Hin. injection Hin as -> ->.
  rewrite Hloop in Hcase. destruct Hcase as [_ Hh].
  cbn [invocations omap]. rewrite Hh, context_turns_last_five.
  fold h. fold answer.
  rewrite length_app. cbn [length].
  rewrite drop_app_le by lia.
  by replace (length h + 2 - 5)%nat with (length h - 3)%nat by lia.
Qed.

Lemma achat_next_context_witness :
  invocations
    (trace_of (QaAgent.achat offline "again"
                 (state_of (QaAgent.achat (answering (Ok {| output := Some "hi" |})) "hello"
                              (agent_with_history seven_turns)))))
  = [({| executor_id := 1 |},
      {| input := "again";
         chat_history_in :=
           [ HumanMessage "q3"; AIMessage "a3"; HumanMessage "q4";
             HumanMessage "hello"; AIMessage "hi" ] |})].
Proof.
  refine (achat_next_context (answering (Ok {| output := Some "hi" |}))
            (agent_with_history seven_turns) "hello" {| executor_id := 1 |}
            last_five_input {| output := Some "hi" |} offline "again" _ eq_refl).
  vm_compute. left.
Defined.

(** ** The knowledge-sources text and the system prompt *)

Lemma contains_refl (s : string) : PyStr.contains s s.
Proof. exists EmptyString, EmptyString. by rewrite append_empty_r. Qed.

Lemma contains_app_l (sub s t : string) :
  PyStr.contains sub s -> PyStr.contains sub (s +:+ t).
Proof.
  intros (pre & post & ->). exists pre, (post +:+ t). by rewrite !append_assoc.
Qed.

Lemma contains_app_r (sub s t : string) :
  PyStr.contains sub t -> PyStr.contains sub (s +:+ t).
Proof.
  intros (pre & post & ->). exists (s +:+ pre), post. by rewrite !append_assoc.
Qed.

Lemma contains_trans (a b c : string) :
  PyStr.contains a b -> PyStr.contains b c -> PyStr.contains a c.
Proof.
  intros Hab (pre & post & ->). by apply contains_app_r, contains_app_l.
Qed.

Lemma join_contains (sep x : string) (parts : list string) :
  x ∈ parts -> PyStr.contains x (PyStr.join sep parts).
Proof.
  induction parts as [|p rest IH]; intros Hin; [by apply elem_of_nil in Hin|].
  apply elem_of_cons in Hin as [->|Hin].
  - destruct rest; [apply contains_refl|]. cbn [PyStr.join].
    apply contains_app_l, contains_refl.
  - destruct rest as [|q rest]; [by apply elem_of_nil in Hin|]. cbn [PyStr.join].
    by apply contains_app_r, contains_app_r, IH.
Qed.

Lemma concat_all_contains (x : string) (parts : list string) :
  x ∈ parts -> PyStr.contains x (concat_all parts).
Proof.
  induction parts as [|p rest IH]; intros Hin; [by apply elem_of_nil in Hin|].
  cbn [concat_all foldr]. apply elem_of_cons in Hin as [->|Hin].
  - apply contains_app_l, contains_refl.
  - by apply contains_app_r, IH.
Qed.

Lemma concat_all_app (l1 l2 : list string) :
  concat_all (l1 ++ l2) = concat_all l1 +:+ concat_all l2.
Proof.
  induction l1 as [|p rest IH]; [reflexivity|].
  cbn [concat_all foldr app]. fold (concat_all (rest ++ l2)). fold (concat_all rest).
  by rewrite IH, append_assoc.
Qed.


Lemma has_domain_spec d (groups : list (string * list QaAgent.Source)) :
  QaAgent.has_domain d groups = true <-> d ∈ groups.*1.
Proof.
  unfold QaAgent.has_domain.
  induction groups as [|[d0 s0] rest IH]; cbn [existsb fmap list_fmap fst].
  - split; [done | intros H; by apply elem_of_nil in H].
  - rewrite orb_true_iff, IH, elem_of_cons, String.eqb_eq.
    split; (intros [Heq|Hin]; [by left | by right]).
Qed.

Lemma append_source_keys d src (groups : list (string * list QaAgent.Source)) :
  (QaAgent.append_source d src groups).*1 = groups.*1.
Proof.
  induction groups as [|[d0 s0] rest IH]; [reflexivity|].
  cbn [QaAgent.append_source]. destruct (String.eqb d0 d); cbn; [done|]. by rewrite IH.
Qed.

Lemma append_source_elem d src (groups : list (string * list QaAgent.Source)) d' srcs' :
  NoDup groups.*1 ->
  (d', srcs') ∈ QaAgent.append_source d src groups <->
  (d' <> d /\ (d', srcs') ∈ groups) \/
  (d' = d /\ exists srcs, (d, srcs) ∈ groups /\ srcs' = srcs ++ [src]).
Proof.
  induction groups as [|[d0 s0] rest IH]; intros Hnd.
  - cbn. split.
    + intros H. by apply elem_of_nil in H.
    + intros [[_ H]|(_ & srcs & H & _)]; by apply elem_of_nil in H.
  - cbn [fmap list_fmap fst] in Hnd. apply NoDup_cons in Hnd as [Hfresh Hnd].
    assert (Hkey : forall x y, (x, y) ∈ rest -> x <> d0).
    { intros x y Hin ->. apply Hfresh. apply list_elem_of_fmap. by exists (d0, y). }
    cbn [QaAgent.append_source]. destruct (String.eqb_spec d0 d) as [->|Hne].
    + rewrite !elem_of_cons. split.
      * intros [[= -> ->]|Hin].
        -- right. split; [done|]. exists s0. split; [by left|done].
        -- left. split; [by eapply Hkey|]. by right.
      * intros [[Hne' [[= ? ?]|Hin]]|(-> & srcs & Hin & ->)].
        -- done.
        -- by right.
        -- apply elem_of_cons in Hin as [[= ->]|Hin]; [by left|].
           by destruct (Hkey _ _ Hin).
    + rewrite elem_of_cons, (IH Hnd). split.
      * intros [[= -> ->]|[[Hne' Hin]|(-> & srcs & Hin & ->)]].
        -- left. split; [done|]. by left.
        -- left. split; [done|]. by right.
        -- right. split; [done|]. exists srcs. split; [by right|done].
      * intros [[Hne' Hin]|(-> & srcs & Hin & ->)].
        -- apply elem_of_cons in Hin as [[= -> ->]|Hin]; [by left|].
           right. left. done.
        -- apply elem_of_cons in Hin as [[= ? ?]|Hin]; [done|].
           right. right. split; [done|]. by exists srcs.
Qed.

(** What the first loop of [build_knowledge_sources_text] has built after
    any number of rows. *)
Lemma group_rows_invariant (rows : list QaAgent.SiteRow) :
  let groups := (QaAgent.group_rows rows).1 in
  let domains := (QaAgent.group_rows rows).2 in
  domains = groups.*1 /\
  domains = first_appearances (QaAgent.domain <$> rows) /\
  forall d srcs, (d, srcs) ∈ groups ->
    srcs = source_of_row <$> filter (fun row => QaAgent.domain row = d) rows.
Proof.
  induction rows as [|row rows IH] using rev_ind; [by repeat split; intros ? ? ?%elem_of_nil|].
  unfold QaAgent.group_rows in *. rewrite fold_left_app. cbn [fold_left].
  destruct (fold_left QaAgent.add_row rows ([], [])) as [groups domains].
  cbn [fst snd] in IH. destruct IH as (Hkeys & Hfirst & Hgroups).
  assert (Hnd : NoDup domains).
  { rewrite Hfirst. unfold first_appearances. rewrite reverse_Permutation.
    apply NoDup_remove_dups. }
  assert (Hmem : forall d, d ∈ domains <-> d ∈ QaAgent.domain <$> rows).
  { intros d. rewrite Hfirst. unfold first_appearances.
    by rewrite elem_of_reverse, elem_of_remove_dups, elem_of_reverse. }
  unfold QaAgent.add_row.
  set (d0 := QaAgent.domain row). set (src := {| QaAgent.source_site := _ |}).
  assert (Hfirst' : first_appearances (QaAgent.domain <$> rows ++ [row])
                    = if QaAgent.has_domain d0 groups then domains else domains ++ [d0]).
  { unfold first_appearances. rewrite fmap_app, reverse_app. cbn [fmap list_fmap reverse].
    change (reverse [QaAgent.domain row]) with [d0]. cbn [app remove_dups].
    assert (Hhas : QaAgent.has_domain d0 groups = true
                   <-> d0 ∈ reverse (QaAgent.domain <$> rows)).
    { by rewrite has_domain_spec, <- Hkeys, Hmem, elem_of_reverse. }
    destruct (decide_rel elem_of d0 (reverse (QaAgent.domain <$> rows))) as [Hin|Hnin].
    - rewrite (proj2 Hhas Hin). by rewrite Hfirst.
    - destruct (QaAgent.has_domain d0 groups); [by destruct Hnin; apply Hhas|].
      by rewrite reverse_cons, Hfirst. }
  rewrite Hfirst'.
  destruct (QaAgent.has_domain d0 groups) eqn:Hhas; cbn [fst snd].
  - rewrite append_source_keys. split; [done|]. split; [done|].
    intros d srcs Hin. apply append_source_elem in Hin; [|by rewrite <- Hkeys].
    rewrite filter_app, fmap_app.
    destruct Hin as [[Hne Hin]|(-> & old & Hin & ->)].
    + rewrite (Hgroups _ _ Hin). rewrite filter_cons_False by (by intros ?). cbn.
      by rewrite app_nil_r.
    + rewrite (Hgroups _ _ Hin). by rewrite filter_cons_True.
  - assert (Hnot : d0 ∉ groups.*1).
    { intros Hin%has_domain_spec. congruence. }
    rewrite append_source_keys, fmap_app. cbn [fmap list_fmap fst].
    split; [by rewrite Hkeys|]. split; [done|].
    intros d srcs Hin. apply append_source_elem in Hin.
    2:{ rewrite fmap_app. cbn. apply NoDup_app. rewrite <- Hkeys.
        split; [done|]. split; [|apply NoDup_singleton].
        intros x Hx ->%list_elem_of_singleton. apply Hnot. by rewrite <- Hkeys. }
    rewrite filter_app, fmap_app.
    destruct Hin as [[Hne Hin]|(-> & old & Hin & ->)].
    + apply elem_of_app in Hin as [Hin|Hin%list_elem_of_singleton]; [|by simplify_eq].
      rewrite (Hgroups _ _ Hin). rewrite filter_cons_False by (by intros ?). cbn.
      by rewrite app_nil_r.
    + apply elem_of_app in Hin as [Hin|Hin%list_elem_of_singleton].
      * destruct Hnot. apply list_elem_of_fmap. by exists (d0, old).
      * injection Hin as ->. rewrite filter_cons_True by done.
        assert (Hnone : filter (fun r => QaAgent.domain r = d0) rows = []).
        { destruct (filter _ rows) as [|r rest] eqn:E; [done|].
          assert (Hr : r ∈ filter (fun r => QaAgent.domain r = d0) rows) by (rewrite E; left).
          apply list_elem_of_filter in Hr as [Hd Hr].
          destruct Hnot. rewrite <- Hkeys. apply Hmem. apply list_elem_of_fmap. by exists r. }
        rewrite Hnone. reflexivity.
Qed.

Lemma fold_source_lines (rows : list QaAgent.SiteRow) (md : string) :
  fold_left QaAgent.add_source_line (source_of_row <$> rows) md
  = md +:+ concat_all (source_line <$> rows).
Proof.
  revert md. induction rows as [|row rest IH]; intros md.
  - cbn. by rewrite append_empty_r.
  - cbn [fmap list_fmap fold_left concat_all foldr]. fold (concat_all (source_line <$> rest)).
    rewrite IH. unfold QaAgent.add_source_line, source_line, source_of_row.
    cbn [QaAgent.source_site QaAgent.source_description].
    by rewrite !append_assoc.
Qed.

Lemma fold_domain_sections (rows : list QaAgent.SiteRow)
    (groups : list (string * list QaAgent.Source)) (md : string) :
  (forall d srcs, (d, srcs) ∈ groups ->
     srcs = source_of_row <$> filter (fun row => QaAgent.domain row = d) rows) ->
  fold_left QaAgent.add_domain_section groups md
  = md +:+ concat_all (domain_block rows <$> groups.*1).
Proof.
  revert md. induction groups as [|[d srcs] rest IH]; intros md Hgroups.
  - cbn. by rewrite append_empty_r.
  - cbn [fmap list_fmap fst fold_left concat_all foldr].
    fold (concat_all (domain_block rows <$> rest.*1)).
    rewrite IH by (intros d' srcs' Hin; apply Hgroups; by right).
    unfold QaAgent.add_domain_section. cbn [fst snd].
    rewrite (Hgroups d srcs) by left.
    rewrite fold_source_lines. unfold domain_block.
    by rewrite !append_assoc.
Qed.

(** The two results of [build_knowledge_sources_text], read off the
    table. *)
Lemma build_knowledge_sources_facts (rows : list QaAgent.SiteRow) :
  (QaAgent.build_knowledge_sources_text rows).2
  = first_appearances (QaAgent.domain <$> rows) /\
  (QaAgent.build_knowledge_sources_text rows).1
  = concat_all (domain_block rows <$> (QaAgent.build_knowledge_sources_text rows).2).
Proof.
  unfold QaAgent.build_knowledge_sources_text.
  destruct (group_rows_invariant rows) as (Hkeys & Hfirst & Hgroups).
  destruct (QaAgent.group_rows rows) as [groups domains]. cbn [fst snd] in *.
  split; [done|].
  rewrite (fold_domain_sections rows groups EmptyString Hgroups).
  by rewrite Hkeys.
Qed.

Lemma first_appearances_elem (l : list string) (x : string) :
  x ∈ first_appearances l <-> x ∈ l.
Proof.
  unfold first_appearances.
  by rewrite elem_of_reverse, elem_of_remove_dups, elem_of_reverse.
Qed.

(** X15.  The domain list of [build_knowledge_sources_text] holds each
    domain of the table once, in order of first appearance. *)
Theorem knowledge_sources_domains (rows : list QaAgent.SiteRow) :
  let domains := (QaAgent.build_knowledge_sources_text rows).2 in
  domains = first_appearances (QaAgent.domain <$> rows) /\
  NoDup domains /\
  forall d, d ∈ domains <-> exists row, row ∈ rows /\ QaAgent.domain row = d.
Proof.
  intros domains. subst domains.
  destruct (build_knowledge_sources_facts rows) as [Hfirst _].
  split; [done|]. rewrite Hfirst. split.
  - unfold first_appearances. rewrite reverse_Permutation. apply NoDup_remove_dups.
  - intros d. rewrite first_appearances_elem, list_elem_of_fmap.
    split; intros (row & H1 & H2); exists row; by split.
Qed.

(** X16.  The knowledge-sources text is one section per listed domain, in
    the order of the domain list; a section is a heading with the domain
    followed by one line per row of that domain, in table order. *)
Theorem knowledge_sources_text_sections (rows : list QaAgent.SiteRow) :
  (QaAgent.build_knowledge_sources_text rows).1
  = concat_all (domain_block rows <$> (QaAgent.build_knowledge_sources_text rows).2).
Proof. apply build_knowledge_sources_facts. Qed.

(** X17.  The system prompt made from a table carries the whole
    knowledge-sources text, hence the line of every row and the heading of
    its domain, names the listed domains in its fifth instruction, and keeps
    [{tools}] and [{tool_names}] as the framework's placeholders. *)
Theorem system_prompt_lists_catalog (rows : list QaAgent.SiteRow) (row : QaAgent.SiteRow) :
  row ∈ rows ->
  let md := (QaAgent.build_knowledge_sources_text rows).1 in
  let domains := (QaAgent.build_knowledge_sources_text rows).2 in
  let prompt := QaAgent.create_system_prompt md domains in
  PyStr.contains md prompt /\
  PyStr.contains (source_line row) prompt /\
  PyStr.contains (nl +:+ "## " +:+ QaAgent.domain row +:+ nl) prompt /\
  PyStr.contains
    ("5. You must only answer questions about available knowledge sources: "
     +:+ QaAgent.repr_list domains) prompt /\
  PyStr.contains "{tools}" prompt /\
  PyStr.contains "{tool_names}" prompt.
Proof.
  intros Hrow md domains prompt.
  assert (Hmd : PyStr.contains md prompt).
  { apply join_contains. do 3 right. left. }
  assert (Hblock : PyStr.contains (domain_block rows (QaAgent.domain row)) md).
  { destruct (build_knowledge_sources_facts rows) as [Hfirst Htext].
    subst md. rewrite Htext.
    apply concat_all_contains, list_elem_of_fmap.
    exists (QaAgent.domain row). split; [done|].
    rewrite Hfirst, first_appearances_elem, list_elem_of_fmap. by exists row. }
  split; [done|]. split; [|split; [|split; [|split]]].
  - eapply contains_trans; [|exact Hmd]. eapply contains_trans; [|exact Hblock].
    unfold domain_block. do 5 apply contains_app_r. apply contains_app_l.
    apply concat_all_contains, list_elem_of_fmap. exists row. split; [done|].
    by apply list_elem_of_filter.
  - eapply contains_trans; [|exact Hmd]. eapply contains_trans; [|exact Hblock].
    unfold domain_block.
    exists EmptyString. eexists. cbn. by rewrite !append_assoc.
  - apply join_contains. do 10 right. left.
  - apply join_contains. do 26 right. left.
  - subst prompt. unfold QaAgent.create_system_prompt. cbv zeta.
    eapply contains_trans; [|apply join_contains; do 30 right; left].
    exists ("Valid " +:+ String PyStr.dquote ("action" +:+ String PyStr.dquote
              (" values: " +:+ String PyStr.dquote ("Final Answer" +:+ String PyStr.dquote
                 " or ")))), EmptyString.
    reflexivity.
Qed.

Lemma system_prompt_lists_catalog_witness :
  PyStr.contains ("- peps.python.org: PEPs" +:+ nl)
    (QaAgent.create_system_prompt (QaAgent.build_knowledge_sources_text three_rows).1
       (QaAgent.build_knowledge_sources_text three_rows).2) /\
  PyStr.contains
    "5. You must only answer questions about available knowledge sources: ['python', 'web']"
    (QaAgent.create_system_prompt (QaAgent.build_knowledge_sources_text three_rows).1
       (QaAgent.build_knowledge_sources_text three_rows).2).
Proof.
  destruct (system_prompt_lists_catalog three_rows
              {| QaAgent.site := "peps.python.org"; QaAgent.domain := "python";
                 QaAgent.description := "PEPs" |})
    as (_ & Hline & _ & Hdomains & _).
  - do 2 right. left.
  - split; [exact Hline | exact Hdomains].
Defined.

(** ** The endpoints *)

(** What [get_or_create_agent] does on an initialized store. *)
Lemma get_or_create_agent_cases env token (server : Main.Server) (state : Main.AppState) :
  Main.app_state server = Some state ->
  let r := Main.get_or_create_agent env token server in
  match Main.user_sessions state !! token with
  | Some agent => r = ([], Ok agent, server)
  | None =>
      (exists e, r = ([ReadCsv "sites_data.csv"], Raise e, server)) \/
      (exists new_agent,
         r = ([ReadCsv "sites_data.csv"], Ok (length (Main.heap server)),
              {| Main.heap := Main.heap server ++ [new_agent];
                 Main.app_state :=
                   Some {| Main.user_sessions :=
                             <[token := length (Main.heap server)]> (Main.user_sessions state);
                           Main.config := Main.config state |} |}) /\
         QaAgent.chat_history new_agent = [] /\
         QaAgent.mcp_client new_agent = None /\
         QaAgent.agent_executor new_agent = None)
  end.
Proof.
  intros Hstate r. subst r.
  unfold Main.get_or_create_agent. act_unfold. cbn beta iota zeta.
  rewrite Hstate.
  destruct (Main.user_sessions state !! token) as [agent|]; [reflexivity|].
  rewrite domain_qa_agent_init_run, load_sites_data_run.
  destruct (read_csv env QaAgent.default_csv_file_path) as [df|e]; [|left; by eexists].
  destruct (filter (fun col => col ∉ columns df) QaAgent.required_columns);
    [|left; by eexists].
  right. eexists. by repeat split.
Qed.

Lemma get_or_create_agent_no_store env token (server : Main.Server) :
  Main.app_state server = None ->
  Main.get_or_create_agent env token server
  = ([], Raise (HTTPException 500 "Session store not initialized"), server).
Proof.
  intros Hstate. unfold Main.get_or_create_agent. act_unfold. cbn beta iota zeta.
  by rewrite Hstate.
Qed.

(** A failed lookup-or-construction changes nothing. *)
Lemma get_or_create_agent_raise env token (server : Main.Server) e :
  outcome_of (Main.get_or_create_agent env token server) = Raise e ->
  state_of (Main.get_or_create_agent env token server) = server.
Proof.
  destruct (Main.app_state server) as [state|] eqn:Hstate.
  - pose proof (get_or_create_agent_cases env token server state Hstate) as Hcases.
    cbv zeta in Hcases.
    destruct (Main.user_sessions state !! token) as [agent|].
    + by rewrite Hcases.
    + destruct Hcases as [[e' ->]|(new_agent & -> & _)]; [done|]. by projections.
  - by rewrite get_or_create_agent_no_store.
Qed.

Lemma session_agent_lookup (server : Main.Server) state token :
  Main.app_state server = Some state ->
  session_agent server token
  = Main.user_sessions state !! token ≫= fun agent => Main.heap server !! agent.
Proof. intros Hstate. unfold session_agent. by rewrite Hstate. Qed.

(** The registry stays valid, and the other sessions stay as they are,
    through [get_or_create_agent]; its answer names an existing object. *)
Lemma get_or_create_agent_valid env token (server : Main.Server) :
  registry_valid server ->
  let r := Main.get_or_create_agent env token server in
  registry_valid (state_of r) /\
  (forall other, other <> token ->
     session_agent (state_of r) other = session_agent server other) /\
  (forall agent, outcome_of r = Ok agent ->
     exists state' self,
       Main.app_state (state_of r) = Some state' /\
       Main.user_sessions state' !! token = Some agent /\
       Main.heap (state_of r) !! agent = Some self).
Proof.
  intros Hvalid r. subst r.
  destruct (Main.app_state server) as [state|] eqn:Hstate.
  2:{ rewrite get_or_create_agent_no_store by done. projections. by repeat split. }
  pose proof (get_or_create_agent_cases env token server state Hstate) as Hcases.
  cbv zeta in Hcases.
  unfold registry_valid in Hvalid. rewrite Hstate in Hvalid.
  destruct Hvalid as [Hbound Hinj].
  destruct (Main.user_sessions state !! token) as [agent|] eqn:Hlookup.
  - rewrite Hcases. projections. split; [|split; [done|]].
    + unfold registry_valid. by rewrite Hstate.
    + intros ? [= <-]. destruct (lookup_lt_is_Some_2 _ _ (Hbound _ _ Hlookup)) as [self Hself].
      by exists state, self.
  - destruct Hcases as [[e ->]|(new_agent & -> & _)]; projections.
    + split; [|split; [done|done]]. unfold registry_valid. by rewrite Hstate.
    + split; [|split].
      * unfold registry_valid. cbn [Main.app_state Main.heap Main.user_sessions].
        rewrite length_app. cbn [length]. split.
        -- intros t a. rewrite lookup_insert. case_decide as Heq.
           ++ intros [= <-]. lia.
           ++ intros Ha. apply Hbound in Ha. lia.
        -- intros t1 t2 a. rewrite !lookup_insert.
           case_decide as H1; case_decide as H2; intros Ha1 Ha2; simplify_eq.
           ++ done.
           ++ apply Hbound in Ha2. lia.
           ++ apply Hbound in Ha1. lia.
           ++ by eapply Hinj.
      * intros other Hother.
        rewrite (session_agent_lookup server state) by done.
        unfold session_agent. cbn [Main.app_state Main.heap Main.user_sessions mbind option_bind].
        rewrite lookup_insert_ne by done.
        destruct (Main.user_sessions state !! other) as [a|] eqn:Ha; [|done]. cbn.
        apply lookup_app_l. by eapply Hbound.
      * intros ? [= <-]. eexists _, new_agent.
        split; [reflexivity|]. cbn [Main.user_sessions Main.heap].
        split; [by rewrite lookup_insert_eq|].
        by rewrite list_lookup_middle.
Qed.

Lemma on_agent_run {A} agent (method : Act QaAgent.Agent A) (server : Main.Server) self :
  Main.heap server !! agent = Some self ->
  Main.on_agent agent method server
  = (trace_of (method self), outcome_of (method self),
     {| Main.heap := <[agent := state_of (method self)]> (Main.heap server);
        Main.app_state := Main.app_state server |}).
Proof.
  intros Hself. unfold Main.on_agent. rewrite Hself.
  by destruct (method self) as [[t r] self'].
Qed.

(** A chat request whose agent cannot be had fails with that exception. *)
Lemma chat_raise env uuid4 request session_id (server : Main.Server) e :
  outcome_of (Main.get_or_create_agent env (request_token uuid4 session_id) server)
  = Raise e ->
  Main.chat env uuid4 request session_id server
  = (trace_of (Main.get_or_create_agent env (request_token uuid4 session_id) server),
     Raise e,
     state_of (Main.get_or_create_agent env (request_token uuid4 session_id) server)).
Proof.
  unfold Main.chat, request_token.
  destruct session_id as [token|]; [destruct (String.eqb token EmptyString)|];
    act_unfold; cbn beta iota zeta;
    match goal with
    | |- context [Main.get_or_create_agent ?env ?t ?s] =>
        destruct (Main.get_or_create_agent env t s) as [[t1 [agent|e1]] s1]
    end; projections; intros [= ->]; reflexivity.
Qed.

(** A chat request whose agent is at hand runs [achat] on that object, after
    [reset_memory] when asked, and stores the object back. *)
Lemma chat_ok env uuid4 request session_id (server : Main.Server) agent self :
  let token := request_token uuid4 session_id in
  let g := Main.get_or_create_agent env token server in
  let self0 :=
    if Main.ChatRequest.reset_memory request then state_of (QaAgent.reset_memory self)
    else self in
  let r0 := QaAgent.achat env (Main.ChatRequest.message request) self0 in
  outcome_of g = Ok agent ->
  Main.heap (state_of g) !! agent = Some self ->
  exists text,
    outcome_of r0 = Ok text /\
    Main.chat env uuid4 request session_id server
    = (trace_of g ++ trace_of r0,
       Ok ({| Main.ChatResponse.response := text;
              Main.ChatResponse.status := "success";
              Main.ChatResponse.session_id := token |},
           request_cookie uuid4 session_id),
       {| Main.heap := <[agent := state_of r0]> (Main.heap (state_of g));
          Main.app_state := Main.app_state (state_of g) |}).
Proof.
  intros token g self0 r0 Hg Hself.
  destruct (achat_never_raises env self0 (Main.ChatRequest.message request)) as [text Htext].
  exists text. split; [exact Htext|].
  assert (Hrun : forall (sid : string) (cookie : option Main.SetCookie),
            sid = token ->
            (agent ← Main.get_or_create_agent env sid;
             (if Main.ChatRequest.reset_memory request
              then Main.on_agent agent QaAgent.reset_memory
              else mret tt);;
             response_text ← Main.on_agent agent
                               (QaAgent.achat env (Main.ChatRequest.message request));
             mret ({| Main.ChatResponse.response := response_text;
                      Main.ChatResponse.status := "success";
                      Main.ChatResponse.session_id := sid |}, cookie)) server
            = (trace_of g ++ trace_of r0,
               Ok ({| Main.ChatResponse.response := text;
                      Main.ChatResponse.status := "success";
                      Main.ChatResponse.session_id := token |}, cookie),
               {| Main.heap := <[agent := state_of r0]> (Main.heap (state_of g));
                  Main.app_state := Main.app_state (state_of g) |})).
  { intros sid cookie ->. subst g. act_unfold. cbn beta iota zeta.
    destruct (Main.get_or_create_agent env token server) as [[t1 [agent1|e1]] s1];
      projections; [|done]. injection Hg as ->.
    subst r0 self0. revert Htext.
    destruct (Main.ChatRequest.reset_memory request).
    - rewrite (on_agent_run agent QaAgent.reset_memory s1 self Hself). projections.
      change (state_of (QaAgent.reset_memory self)) with (QaAgent.set_chat_history [] self).
      cbn [QaAgent.reset_memory QaAgent.modify fst snd].
      rewrite on_agent_run with (self := QaAgent.set_chat_history [] self).
      2:{ cbn [Main.heap]. apply list_lookup_insert_eq. by eapply lookup_lt_Some. }
      cbn [Main.heap Main.app_state]. rewrite list_insert_insert_eq.
      destruct (QaAgent.achat env _ (QaAgent.set_chat_history [] self)) as [[t2 r2] self2].
      projections. intros ->. cbn. by rewrite !app_nil_r.
    - rewrite (on_agent_run agent _ s1 self Hself).
      destruct (QaAgent.achat env _ self) as [[t2 r2] self2].
      projections. intros ->. cbn. by rewrite !app_nil_r. }
  unfold Main.chat, request_cookie. subst token. unfold request_token in *.
  destruct session_id as [sid|]; [destruct (String.eqb sid EmptyString)|];
    by apply Hrun.
Qed.

(** X18.  Start-up leaves an empty, valid registry: no token stands for an
    agent and the health answer counts 0 sessions, as it does before
    start-up. *)
Theorem startup_registry_empty (environ : gmap string string) parse_float
    (server server' : Main.Server) :
  Main.lifespan_startup environ parse_float server = Ok server' ->
  registry_valid server' /\
  (forall token, session_agent server' token = None) /\
  json_get "active_sessions" (Main.health_check server') = Some (Main.JInt 0) /\
  json_get "active_sessions"
    (Main.health_check {| Main.heap := Main.heap server; Main.app_state := None |})
  = Some (Main.JInt 0).
Proof.
  unfold Main.lifespan_startup.
  destruct (Main.create_config environ parse_float) as [config|e]; [|done].
  intros [= <-]. split; [|by repeat split].
  unfold registry_valid. cbn [Main.app_state Main.user_sessions]. split.
  - intros token agent Hin. by rewrite lookup_empty in Hin.
  - intros token1 token2 agent Hin. by rewrite lookup_empty in Hin.
Qed.

Lemma startup_registry_empty_witness :
  exists server',
    Main.lifespan_startup front_door_environ parse_half
      {| Main.heap := []; Main.app_state := None |} = Ok server' /\
    json_get "active_sessions" (Main.health_check server') = Some (Main.JInt 0).
Proof.
  eexists. split; [reflexivity|].
  eapply (startup_registry_empty front_door_environ parse_half
            {| Main.heap := []; Main.app_state := None |}).
  reflexivity.
Defined.

(** X19.  [get_or_create_agent] keeps the registry valid and leaves every
    other session's agent as it is; the number of sessions the health answer
    reports grows by one exactly when an agent was constructed for a token
    that was not registered. *)
Theorem get_or_create_agent_sessions env token (server : Main.Server)
    (state : Main.AppState) :
  registry_valid server ->
  Main.app_state server = Some state ->
  let r := Main.get_or_create_agent env token server in
  registry_valid (state_of r) /\
  (forall other, other <> token ->
     session_agent (state_of r) other = session_agent server other) /\
  json_get "active_sessions" (Main.health_check (state_of r))
  = Some (Main.JInt
            (Z.of_nat (size (Main.user_sessions state))
             + match Main.user_sessions state !! token, outcome_of r with
               | None, Ok _ => 1
               | _, _ => 0
               end)).
Proof.
  intros Hvalid Hstate r.
  destruct (get_or_create_agent_valid env token server Hvalid) as (Hv & Hothers & _).
  split; [exact Hv|]. split; [exact Hothers|]. subst r.
  pose proof (get_or_create_agent_cases env token server state Hstate) as Hcases.
  cbv zeta in Hcases.
  destruct (Main.user_sessions state !! token) as [agent|] eqn:Hlookup.
  - rewrite Hcases. projections. cbn. rewrite Hstate. do 2 f_equal. lia.
  - destruct Hcases as [[e ->]|(new_agent & -> & _)]; projections; cbn.
    + rewrite Hstate. do 2 f_equal. lia.
    + rewrite map_size_insert_None by done. do 2 f_equal. lia.
Qed.

Lemma one_session_valid : registry_valid one_session.
Proof.
  unfold registry_valid, one_session, one_session_state.
  cbn [Main.app_state Main.user_sessions Main.heap]. split.
  - intros token agent Hin. apply lookup_singleton_Some in Hin as [_ <-]. cbn. lia.
  - intros token1 token2 agent H1 H2.
    apply lookup_singleton_Some in H1 as [<- _].
    by apply lookup_singleton_Some in H2 as [<- _].
Qed.

Lemma get_or_create_agent_sessions_witness :
  json_get "active_sessions"
    (Main.health_check
       (state_of (Main.get_or_create_agent (disk catalog_null_domain) "xyz" one_session)))
  = Some (Main.JInt 2).
Proof.
  exact (proj2 (proj2 (get_or_create_agent_sessions (disk catalog_null_domain) "xyz"
                         one_session one_session_state one_session_valid eq_refl))).
Defined.

(** X20.  A chat request under a registered token runs [achat] on the very
    object the registry holds, after emptying its history when the request
    asks for it, and stores the outcome back in place; it makes no other
    outside call, sets no cookie and answers with status ["success"] and the
    same token. *)
Theorem chat_on_registered_session env uuid4 request token (server : Main.Server)
    (state : Main.AppState) agent self :
  Main.app_state server = Some state ->
  token <> EmptyString ->
  Main.user_sessions state !! token = Some agent ->
  Main.heap server !! agent = Some self ->
  let self0 :=
    if Main.ChatRequest.reset_memory request then QaAgent.set_chat_history [] self
    else self in
  let r0 := QaAgent.achat env (Main.ChatRequest.message request) self0 in
  exists text,
    outcome_of r0 = Ok text /\
    Main.chat env uuid4 request (Some token) server
    = (trace_of r0,
       Ok ({| Main.ChatResponse.response := text;
              Main.ChatResponse.status := "success";
              Main.ChatResponse.session_id := token |}, None),
       {| Main.heap := <[agent := state_of r0]> (Main.heap server);
          Main.app_state := Main.app_state server |}).
Proof.
  intros Hstate Hne Hlookup Hself self0 r0.
  pose proof (get_or_create_agent_cases env token server state Hstate) as Hg.
  cbv zeta in Hg. rewrite Hlookup in Hg.
  assert (Htoken : request_token uuid4 (Some token) = token).
  { unfold request_token. by destruct (String.eqb_spec token EmptyString). }
  destruct (chat_ok env uuid4 request (Some token) server agent self) as (text & Htext & Hchat).
  - by rewrite Htoken, Hg.
  - by rewrite Htoken, Hg.
  - exists text. split; [exact Htext|].
    rewrite Hchat, Htoken, Hg. projections. cbn [app].
    unfold request_cookie. by destruct (String.eqb_spec token EmptyString).
Qed.

Lemma chat_on_registered_session_witness :
  exists text,
    outcome_of (QaAgent.achat offline "hello" (agent_with_history seven_turns)) = Ok text /\
    Main.chat offline "fresh-uuid"
      {| Main.ChatRequest.message := "hello"; Main.ChatRequest.reset_memory := false |}
      (Some "abc") one_session
    = (trace_of (QaAgent.achat offline "hello" (agent_with_history seven_turns)),
       Ok ({| Main.ChatResponse.response := text;
              Main.ChatResponse.status := "success";
              Main.ChatResponse.session_id := "abc" |}, None),
       {| Main.heap :=
            <[0%nat := state_of (QaAgent.achat offline "hello"
                                   (agent_with_history seven_turns))]>
              (Main.heap one_session);
          Main.app_state := Main.app_state one_session |}).
Proof.
  exact (chat_on_registered_session offline "fresh-uuid"
           {| Main.ChatRequest.message := "hello"; Main.ChatRequest.reset_memory := false |}
           "abc" one_session one_session_state 0%nat (agent_with_history seven_turns)
           eq_refl ltac:(discriminate) eq_refl eq_refl).
Defined.

(** How a chat request ends, on a valid registry. *)
Lemma chat_cases env uuid4 request session_id (server : Main.Server) :
  registry_valid server ->
  let token := request_token uuid4 session_id in
  let g := Main.get_or_create_agent env token server in
  let c := Main.chat env uuid4 request session_id server in
  (exists e, outcome_of g = Raise e /\ c = (trace_of g, Raise e, server)) \/
  (exists agent self text,
     outcome_of g = Ok agent /\
     Main.heap (state_of g) !! agent = Some self /\
     (exists state', Main.app_state (state_of g) = Some state' /\
                     Main.user_sessions state' !! token = Some agent) /\
     let self0 :=
       if Main.ChatRequest.reset_memory request then state_of (QaAgent.reset_memory self)
       else self in
     let r0 := QaAgent.achat env (Main.ChatRequest.message request) self0 in
     outcome_of r0 = Ok text /\
     c = (trace_of g ++ trace_of r0,
          Ok ({| Main.ChatResponse.response := text;
                 Main.ChatResponse.status := "success";
                 Main.ChatResponse.session_id := token |},
              request_cookie uuid4 session_id),
          {| Main.heap := <[agent := state_of r0]> (Main.heap (state_of g));
             Main.app_state := Main.app_state (state_of g) |})).
Proof.
  intros Hvalid token g c. subst c.
  destruct (get_or_create_agent_valid env token server Hvalid) as (_ & _ & Hok).
  fold g in Hok.
  destruct (outcome_of g) as [agent|e] eqn:Hg.
  - right. destruct (Hok agent eq_refl) as (state' & self & Hs & Hl & Hself).
    destruct (chat_ok env uuid4 request session_id server agent self Hg Hself)
      as (text & Htext & Hchat).
    exists agent, self, text. split; [done|]. split; [done|].
    split; [by exists state'|]. by split.
  - left. exists e. split; [done|].
    rewrite (chat_raise env uuid4 request session_id server e Hg).
    f_equal. exact (get_or_create_agent_raise env token server e Hg).
Qed.

(** X21.  A chat request that is answered is answered with status
    ["success"], whatever [achat] returned.  With a non-empty token in the
    cookie the answer carries that token and no cookie is set; otherwise it
    carries the new token, which is also set as an HTTP-only, secure,
    same-site-lax [session_id] cookie of 3600 seconds. *)
Theorem chat_response_and_cookie env uuid4 request session_id (server : Main.Server)
    response cookie :
  registry_valid server ->
  outcome_of (Main.chat env uuid4 request session_id server) = Ok (response, cookie) ->
  Main.ChatResponse.status response = "success" /\
  match session_id with
  | Some (String c rest) =>
      Main.ChatResponse.session_id response = String c rest /\ cookie = None
  | _ =>
      Main.ChatResponse.session_id response = uuid4 /\
      cookie = Some {| Main.key := "session_id"; Main.value := uuid4;
                       Main.httponly := true; Main.secure := true;
                       Main.samesite := "lax"; Main.max_age := 3600 |}
  end.
Proof.
  intros Hvalid Hout.
  destruct (chat_cases env uuid4 request session_id server Hvalid)
    as [(e & _ & Hc)|(agent & self & text & _ & _ & _ & _ & Hc)];
    rewrite Hc in Hout; projections; [done|].
  injection Hout as <- <-. split; [reflexivity|].
  by destruct session_id as [[|c rest]|].
Qed.

Lemma chat_response_and_cookie_witness :
  exists response,
    outcome_of (Main.chat (disk catalog_null_domain) "fresh-uuid"
                  {| Main.ChatRequest.message := "hello";
                     Main.ChatRequest.reset_memory := false |}
                  None one_session)
    = Ok (response,
          Some {| Main.key := "session_id"; Main.value := "fresh-uuid";
                  Main.httponly := true; Main.secure := true;
                  Main.samesite := "lax"; Main.max_age := 3600 |}) /\
    Main.ChatResponse.session_id response = "fresh-uuid".
Proof.
  eexists. split; [reflexivity|].
  refine (proj1 (proj2 (chat_response_and_cookie (disk catalog_null_domain) "fresh-uuid"
                          {| Main.ChatRequest.message := "hello";
                             Main.ChatRequest.reset_memory := false |}
                          None one_session _ _ one_session_valid eq_refl))).
Defined.

(** X22.  A chat request raises only when its agent cannot be had, that
    is when the store is missing or the construction of a new agent raises,
    and then it changes nothing. *)
Theorem chat_failure_changes_nothing env uuid4 request session_id (server : Main.Server) e :
  registry_valid server ->
  outcome_of (Main.chat env uuid4 request session_id server) = Raise e ->
  outcome_of (Main.get_or_create_agent env (request_token uuid4 session_id) server)
  = Raise e /\
  state_of (Main.chat env uuid4 request session_id server) = server.
Proof.
  intros Hvalid Hout.
  destruct (chat_cases env uuid4 request session_id server Hvalid)
    as [(e' & Hg & Hc)|(agent & self & text & _ & _ & _ & _ & Hc)];
    rewrite Hc in Hout |- *; projections; [|done].
  by injection Hout as <-.
Qed.

Lemma chat_failure_changes_nothing_witness :
  outcome_of (Main.get_or_create_agent offline "xyz" one_session)
  = Raise (OtherException "offline") /\
  state_of (Main.chat offline "fresh-uuid"
              {| Main.ChatRequest.message := "hello"; Main.ChatRequest.reset_memory := true |}
              (Some "xyz") one_session)
  = one_session.
Proof.
  exact (chat_failure_changes_nothing offline "fresh-uuid"
           {| Main.ChatRequest.message := "hello"; Main.ChatRequest.reset_memory := true |}
           (Some "xyz") one_session (OtherException "offline") one_session_valid eq_refl).
Defined.

(** X23.  Sessions are isolated.  A chat request keeps the registry valid
    and leaves the agent of every token other than its own exactly as it
    was. *)
Theorem chat_keeps_other_sessions env uuid4 request session_id (server : Main.Server)
    other :
  registry_valid server ->
  other <> request_token uuid4 session_id ->
  registry_valid (state_of (Main.chat env uuid4 request session_id server)) /\
  session_agent (state_of (Main.chat env uuid4 request session_id server)) other
  = session_agent server other.
Proof.
  intros Hvalid Hother.
  destruct (get_or_create_agent_valid env (request_token uuid4 session_id) server Hvalid)
    as (Hv & Hothers & _).
  destruct (chat_cases env uuid4 request session_id server Hvalid)
    as [(e & _ & Hc)|(agent & self & text & _ & Hself & (state' & Hs & Hl) & _ & Hc)];
    rewrite Hc; projections; [done|].
  rewrite <- (Hothers other Hother).
  unfold registry_valid in Hv |- *. unfold session_agent.
  cbn [Main.app_state Main.heap]. rewrite Hs in Hv |- *. destruct Hv as [Hbound Hinj].
  split.
  - split; [|done]. intros t a Ha. rewrite length_insert. by eapply Hbound.
  - cbn [mbind option_bind].
    destruct (Main.user_sessions state' !! other) as [a|] eqn:Ha; [|done]. cbn.
    apply list_lookup_insert_ne. intros <-. apply Hother. by eapply Hinj.
Qed.

Lemma chat_keeps_other_sessions_witness :
  session_agent
    (state_of (Main.chat (disk catalog_null_domain) "fresh-uuid"
                 {| Main.ChatRequest.message := "hello";
                    Main.ChatRequest.reset_memory := true |}
                 None one_session)) "abc"
  = Some (agent_with_history seven_turns).
Proof.
  refine (proj2 (chat_keeps_other_sessions (disk catalog_null_domain) "fresh-uuid"
                   {| Main.ChatRequest.message := "hello";
                      Main.ChatRequest.reset_memory := true |}
                   None one_session "abc" one_session_valid _)).
  discriminate.
Defined.




(** X25.  [POST /reset] under a registered token makes no outside call,
    answers with the success message and empties the history of that
    session's agent in place; nothing else of the agent or of the store
    changes. *)
Theorem reset_endpoint_registered env token (server : Main.Server)
    (state : Main.AppState) agent self :
  Main.app_state server = Some state ->
  token <> EmptyString ->
  Main.user_sessions state !! token = Some agent ->
  Main.heap server !! agent = Some self ->
  Main.reset_memory env (Some token) server
  = ([],
     Ok [ ("message", Main.JStr "Conversation memory has been reset");
          ("status", Main.JStr "success") ],
     {| Main.heap := <[agent := QaAgent.set_chat_history [] self]> (Main.heap server);
        Main.app_state := Main.app_state server |}).
Proof.
  intros Hstate Hne Hlookup Hself.
  pose proof (get_or_create_agent_cases env token server state Hstate) as Hg.
  cbv zeta in Hg. rewrite Hlookup in Hg.
  unfold Main.reset_memory.
  destruct (String.eqb_spec token EmptyString) as [?|_]; [done|].
  act_unfold. cbn beta iota zeta. rewrite Hg.
  by rewrite (on_agent_run agent QaAgent.reset_memory server self Hself).
Qed.

Lemma reset_endpoint_registered_witness :
  session_agent (state_of (Main.reset_memory offline (Some "abc") one_session)) "abc"
  = Some (agent_with_history []).
Proof.
  rewrite (reset_endpoint_registered offline "abc" one_session one_session_state 0%nat
             (agent_with_history seven_turns) eq_refl ltac:(discriminate) eq_refl eq_refl).
  reflexivity.
Defined.

(** [POST /reset] without a cookie, or with an empty one, raises the HTTP
    error 400 ["No active session"], makes no outside call and changes
    nothing; no agent is constructed. *)
Lemma reset_endpoint_without_cookie env session_id (server : Main.Server) :
  session_id = None \/ session_id = Some EmptyString ->
  Main.reset_memory env session_id server
  = ([], Raise (HTTPException 400 "No active session"), server) /\
  exn_str (HTTPException 400 "No active session") = "400: No active session".
Proof. by intros [-> | ->]. Qed.

(** X26.  [POST /reset] under a token that is not registered creates the
    session: when the catalog loads, it reads it, constructs an agent,
    registers it under the token and answers with the success message, so
    that the health answer counts one session more. *)
Theorem reset_endpoint_unknown_token env token (server : Main.Server)
    (state : Main.AppState) df :
  Main.app_state server = Some state ->
  token <> EmptyString ->
  Main.user_sessions state !! token = None ->
  read_csv env "sites_data.csv" = Ok df ->
  (forall c, c ∈ QaAgent.required_columns -> c ∈ columns df) ->
  let r := Main.reset_memory env (Some token) server in
  trace_of r = [ReadCsv "sites_data.csv"] /\
  outcome_of r = Ok [ ("message", Main.JStr "Conversation memory has been reset");
                      ("status", Main.JStr "success") ] /\
  (exists self', session_agent (state_of r) token = Some self' /\
                 QaAgent.chat_history self' = [] /\
                 QaAgent.sites_df self' = df) /\
  json_get "active_sessions" (Main.health_check (state_of r))
  = Some (Main.JInt (Z.of_nat (size (Main.user_sessions state)) + 1)).
Proof.
  intros Hstate Hne Hlookup Hread Hcols r. subst r.
  unfold Main.reset_memory.
  destruct (String.eqb_spec token EmptyString) as [?|_]; [done|].
  unfold Main.get_or_create_agent. act_unfold. cbn beta iota zeta.
  rewrite Hstate, Hlookup.
  rewrite domain_qa_agent_init_run, load_sites_data_run.
  change QaAgent.default_csv_file_path with "sites_data.csv". rewrite Hread.
  rewrite (proj2 (missing_columns_nil (columns df)) Hcols).
  cbn beta iota zeta.
  erewrite on_agent_run by (cbn [Main.heap]; by apply list_lookup_middle).
  projections. cbn [app QaAgent.reset_memory QaAgent.modify fst snd].
  split; [done|]. split; [done|]. split.
  - eexists. unfold session_agent. cbn [Main.app_state Main.user_sessions Main.heap].
    cbn [mbind option_bind Main.user_sessions]. rewrite lookup_insert_eq.
    cbn [mbind option_bind].
    rewrite list_lookup_insert_eq by (rewrite length_app; cbn; lia).
    by repeat split.
  - cbn. rewrite map_size_insert_None by done. do 2 f_equal. lia.
Qed.

Lemma reset_endpoint_unknown_token_witness :
  json_get "active_sessions"
    (Main.health_check
       (state_of (Main.reset_memory (disk catalog_null_domain) (Some "xyz") one_session)))
  = Some (Main.JInt 2).
Proof.
  refine (proj2 (proj2 (proj2
            (reset_endpoint_unknown_token (disk catalog_null_domain) "xyz" one_session
               one_session_state catalog_null_domain eq_refl _ eq_refl eq_refl _)))).
  - discriminate.
  - intros c Hc. exact Hc.
Defined.
